(** * The daily Wheelhouse ETL ([srg_rm_copilot/etl.py])

    A shallow embedding of the three pieces of [etl.py]:
    - [_get_with_retry], the GET wrapper that retries on HTTP 429 with
      exponential backoff;
    - [_extract_listing_ids] and the metrics normalisation that is written
      inline in [etl];
    - the [etl] command itself, run against an arbitrary server.

    Decoded JSON is a tagged value type.  Everything the program does to the
    outside world (requests, sleeps, echoes, directory creation, Parquet
    writes) is recorded, in order, in a trace of events; the server answers a
    request as a function of the trace so far. *)

From stdpp Require Import gmap strings.
From Stdlib Require Import ZArith QArith List String Ascii Bool Lia DecimalString.
Import ListNotations.

Local Open Scope string_scope.
Local Open Scope list_scope.
Local Open Scope Z_scope.

(** ** Decoded JSON values *)

(** What [response.json()] can produce.  A [dict] keeps its insertion order,
    so it is an association list; its keys are always [str].  A float is
    carried by its [repr] text, which identifies it. *)
#[warnings="-register-all"]
Inductive value : Type :=
| VNone
| VBool (b : bool)
| VInt (n : Z)
| VFloat (repr : string)
| VStr (s : string)
| VList (items : list value)
| VDict (entries : list (string * value)).

Definition dict := list (string * value).

(** ** Exceptions and results *)

Inductive exn : Type :=
| HTTPStatusError (status : Z)
| JSONDecodeError
| KeyError (key : string)
| Exit (code : Z)
| BadParameter (msg : string).

Inductive result (A : Type) : Type :=
| Ok (a : A)
| Raise (e : exn).

Arguments Ok {A} a.
Arguments Raise {A} e.

Definition rbind {A B} (c : result A) (k : A -> result B) : result B :=
  match c with
  | Ok a => k a
  | Raise e => Raise e
  end.

Notation "'let*' x ':=' c 'in' k" := (rbind c (fun x => k))
  (at level 10, x name, c at level 100, k at level 200).

(** [for x in xs: body] over an accumulator, stopping at the first exception. *)
Fixpoint rfor {A S} (xs : list A) (body : S -> A -> result S) (s : S) : result S :=
  match xs with
  | [] => Ok s
  | x :: xs' => let* s' := body s x in rfor xs' body s'
  end.

(** A generator expression [f(x) for x in xs], consumed to the end. *)
Fixpoint rgen {A B} (f : A -> result B) (xs : list A) : result (list B) :=
  match xs with
  | [] => Ok []
  | x :: xs' => let* y := f x in let* ys := rgen f xs' in Ok (y :: ys)
  end.

(** ** Python builtins used by the normalisers *)

(** [d.get(k)] as an option: the first (and, in a dict, only) entry at [k]. *)
Fixpoint lookup_key (k : string) (d : dict) : option value :=
  match d with
  | [] => None
  | (k', v) :: d' => if String.eqb k k' then Some v else lookup_key k d'
  end.

(** [k in d] *)
Definition dict_contains (k : string) (d : dict) : bool :=
  match lookup_key k d with Some _ => true | None => false end.

(** [d[k]] *)
Definition dict_getitem (d : dict) (k : string) : result value :=
  match lookup_key k d with Some v => Ok v | None => Raise (KeyError k) end.

(** [d.get(k)], whose default is [None] *)
Definition dict_get (d : dict) (k : string) : value :=
  match lookup_key k d with Some v => v | None => VNone end.

(** [d.keys()] *)
Definition dict_keys (d : dict) : list string := map fst d.

Definition isinstance_list (v : value) : bool :=
  match v with VList _ => true | _ => false end.

(** [isinstance(v, list)], handing back the list it found. *)
Definition as_list (v : value) : option (list value) :=
  match v with VList items => Some items | _ => None end.

Definition isinstance_dict (v : value) : bool :=
  match v with VDict _ => true | _ => false end.

(** The builtin [str].  Its text for a nested value follows [repr], which the
    program never inspects; the one fact used is that [str] of a [str] is the
    string itself. *)
Class PyStr : Type := {
  py_str : value -> string;
  py_str_str : forall s, py_str (VStr s) = s
}.

(** ** The listings normaliser *)

Section Normalisers.

Context `{PyStr}.

(** The expression the source writes twice, once in the loop and once in the
    generator: [str(item["id"]) if isinstance(item, dict) and "id" in item
    else str(item)]. *)
Definition id_or_item (item : value) : result string :=
  match item with
  | VDict d =>
      if dict_contains "id" d
      then let* v := dict_getitem d "id" in Ok (py_str v)
      else Ok (py_str item)
  | _ => Ok (py_str item)
  end.

(** The element rule in the spec's words: a mapping with an [id] field gives
    that field, stringified; anything else is stringified whole. *)
Definition element_id (item : value) : string :=
  match item with
  | VDict d =>
      match lookup_key "id" d with
      | Some v => py_str v
      | None => py_str item
      end
  | _ => py_str item
  end.

Definition _extract_listing_ids (listings_json : value) : result (list string) :=
  let ids : list string := [] in
  match listings_json with
  | VList items =>
      rfor items (fun (ids : list string) item =>
                    let* i := id_or_item item in Ok (ids ++ [i])) ids
  | VDict d =>
      let results := dict_get d "results" in
      match results with
      | VList items => let* new := rgen id_or_item items in Ok (ids ++ new)
      | _ => Ok (ids ++ map (fun k => py_str (VStr k)) (dict_keys d))
      end
  | _ => Ok ids
  end.

(** ** The metrics normaliser (inline in [etl]) *)

Definition extract_records (metrics_json : value) : result (list value) :=
  match metrics_json with
  | VNone => Ok []
  | VList records => Ok records
  | VDict d =>
      (* "data" in metrics_json and isinstance(metrics_json["data"], list) *)
      let* data :=
        (if dict_contains "data" d
         then let* v := dict_getitem d "data" in Ok (as_list v)
         else Ok None) in
      match data with
      | Some records => Ok records
      | None =>
          let* results :=
            (if dict_contains "results" d
             then let* v := dict_getitem d "results" in Ok (as_list v)
             else Ok None) in
          match results with
          | Some records => Ok records
          | None => Ok [metrics_json]
          end
      end
  | _ => Ok []
  end.

End Normalisers.

(** ** Effects: the trace of calls to the outside world *)

Record request : Type := {
  url : string;
  headers : list (string * string);
  params : option (list (string * string))
}.

(** What [client.get] hands back: the status and what [response.json()]
    would decode ([None] when the body is not JSON). *)
Record response : Type := {
  status_code : Z;
  body_json : option value
}.

(** The calls the program makes to the outside world, in order.  A trace
    records that a call was made, with its arguments; the model goes on as
    if the call returned, which [os.makedirs] and [to_parquet] do for any
    writable path and any records pandas can lay out as columns (a list of
    no records among them). *)
Inductive event : Type :=
| Get (req : request)                          (* client.get(url, headers=, params=) *)
| Sleep (seconds : Q)                          (* time.sleep(delay) *)
| Echo (err : bool) (message : string)         (* typer.echo(message, err=) *)
| Makedirs (path : string)                     (* os.makedirs(path, exist_ok=True) *)
| ToParquet (path : string) (records : list value).
                                               (* pd.DataFrame(records).to_parquet(path) *)

Definition trace := list event.

(** The remote API: its answer may depend on everything that happened so
    far (earlier requests, time slept). *)
Definition server := trace -> request -> response.

(** A command reads and extends the trace, and either returns, raises, or
    (in this model only) runs out of loop fuel: [None]. *)
Definition M (A : Type) : Type := trace -> option (result A * trace).

Definition ret {A} (a : A) : M A := fun t => Some (Ok a, t).

Definition raise {A} (e : exn) : M A := fun t => Some (Raise e, t).

Definition bind {A B} (c : M A) (k : A -> M B) : M B :=
  fun t =>
    match c t with
    | None => None
    | Some (Ok a, t') => k a t'
    | Some (Raise e, t') => Some (Raise e, t')
    end.

Definition lift {A} (r : result A) : M A := fun t => Some (r, t).

Definition emit (e : event) : M unit := fun t => Some (Ok tt, t ++ [e]).

Declare Scope etl_scope.
Delimit Scope etl_scope with etl.
Notation "x <- c ;; k" := (bind c (fun x => k))
  (at level 100, c at next level, right associativity) : etl_scope.
Notation "c ;; k" := (bind c (fun _ => k))
  (at level 100, right associativity) : etl_scope.
Local Open Scope etl_scope.

(** ** httpx and time *)

(** [codes.is_success] *)
Definition is_success (status : Z) : bool := (200 <=? status) && (status <=? 299).

(** [response.raise_for_status()] *)
Definition raise_for_status (r : response) : result unit :=
  if is_success (status_code r) then Ok tt
  else Raise (HTTPStatusError (status_code r)).

(** [response.json()] *)
Definition response_json (r : response) : result value :=
  match body_json r with
  | Some v => Ok v
  | None => Raise JSONDecodeError
  end.

(** [headers or {}] *)
Definition or_empty (headers : option (list (string * string))) : list (string * string) :=
  match headers with
  | Some h => h
  | None => []
  end.

(** [(2 ** attempt) * backoff_factor], in exact seconds.  Python computes it
    in floating point: scaling a float by a power of two is exact, and
    [2 ** attempt] converts to a float for [attempt < 1024] (beyond, the
    product raises [OverflowError]). *)
Definition backoff_delay (backoff_factor : Q) (attempt : Z) : Q :=
  (inject_Z (2 ^ attempt) * backoff_factor)%Q.

(** A bound in seconds (about 49 days) under which [time.sleep] takes the
    delay on every platform; it raises [ValueError] for a negative delay and
    [OverflowError] for one too long for its clock. *)
Definition max_sleep : Q := 4294967.

(** A delay [time.sleep] accepts. *)
Definition sleepable (delay : Q) : Prop := (0 <= delay <= max_sleep)%Q.

(** A retry policy the code can run to its end: at every attempt that may
    be followed by a retry, the delay is computed and [time.sleep] accepts
    it. *)
Definition backoff_in_range (max_retries : Z) (backoff_factor : Q) : Prop :=
  forall attempt : Z,
    0 <= attempt < max_retries - 1 ->
    attempt < 1024 /\ sleepable (backoff_delay backoff_factor attempt).

Section Fetcher.

Variable srv : server.

Definition client_get (req : request) : M response :=
  fun t => Some (Ok (srv t req), t ++ [Get req]).

(** [time.sleep(delay)], recorded as the call that is made.  The call
    returns when the delay is [sleepable]; the statements on the backoff
    schedule as a whole are made for policies [backoff_in_range]. *)
Definition time_sleep (delay : Q) : M unit := emit (Sleep delay).

(** One pass of [while True] per unit of fuel. *)
Fixpoint retry_loop (fuel : nat) (req : request) (max_retries : Z)
    (backoff_factor : Q) (attempt : Z) : M value :=
  match fuel with
  | O => fun _ => None
  | S fuel' =>
      response <- client_get req ;;
      if (status_code response =? 429) && (attempt <? max_retries - 1)
      then
        let delay := backoff_delay backoff_factor attempt in
        time_sleep delay ;;
        retry_loop fuel' req max_retries backoff_factor (attempt + 1)
      else
        lift (raise_for_status response) ;;
        lift (response_json response)
  end.

(** The loop leaves after at most [max_retries - 1] retries, so this much
    fuel is never used up ([_get_with_retry_total]). *)
Definition enough_fuel (max_retries : Z) : nat := S (Z.to_nat (max_retries - 1)).

Definition _get_with_retry (url : string)
    (headers : option (list (string * string)))
    (params : option (list (string * string)))
    (max_retries : Z) (backoff_factor : Q) : M value :=
  let attempt := 0 in
  retry_loop (enough_fuel max_retries)
    {| url := url; headers := or_empty headers; params := params |}
    max_retries backoff_factor attempt.

End Fetcher.

(** The request [_get_with_retry] sends, every time. *)
Definition request_for (url : string) (headers : option (list (string * string)))
    (params : option (list (string * string))) : request :=
  Build_request url (or_empty headers) params.

(** What the last pass of the loop does with its response:
    [response.raise_for_status()] and then [response.json()]. *)
Definition finish (r : response) : result value :=
  let* _ := raise_for_status r in response_json r.

(** [k] rate-limited passes starting at index [attempt]: each is the
    request followed by its backoff sleep. *)
Fixpoint backoff_rounds (req : request) (backoff_factor : Q) (attempt : Z) (k : nat)
    : trace :=
  match k with
  | O => []
  | S k' =>
      Get req :: Sleep (backoff_delay backoff_factor attempt)
        :: backoff_rounds req backoff_factor (attempt + 1) k'
  end.

(** ** Dates, paths and the process around [etl] *)

(** A [dt.date]. *)
Record dt_date : Type := { year : N; month : N; day : N }.

Definition digits (n : N) : string := NilZero.string_of_uint (N.to_uint n).

(** Left-pad with zeros up to [width] characters, as [%0<width>d] does. *)
Definition zfill (width : nat) (s : string) : string :=
  String.concat EmptyString (repeat "0" (width - String.length s)) +:+ s.

(** [str(target_date)]: the ISO form [YYYY-MM-DD]. *)
Definition date_str (d : dt_date) : string :=
  zfill 4 (digits (year d)) +:+ "-" +:+ zfill 2 (digits (month d))
    +:+ "-" +:+ zfill 2 (digits (day d)).

Definition startswith_slash (s : string) : bool :=
  match s with
  | String "/" _ => true
  | _ => false
  end.

Fixpoint endswith_slash (s : string) : bool :=
  match s with
  | EmptyString => false
  | String c EmptyString => Ascii.eqb c "/"
  | String _ s' => endswith_slash s'
  end.

(** One round of the loop in [posixpath.join]. *)
Definition join_step (path b : string) : string :=
  if startswith_slash b then b
  else if (String.length path =? 0)%nat || endswith_slash path then path +:+ b
  else path +:+ "/" +:+ b.

(** [os.path.join(a, *p)] on a POSIX system. *)
Definition os_path_join (a : string) (p : list string) : string :=
  fold_left join_step p a.

(** [s.rstrip("/")] *)
Fixpoint rstrip_slash (s : string) : string :=
  match s with
  | EmptyString => EmptyString
  | String c s' =>
      match rstrip_slash s' with
      | EmptyString => if Ascii.eqb c "/" then EmptyString else String c EmptyString
      | r => String c r
      end
  end.

(** The exit status Typer gives the process: 0 on return, the code of
    [typer.Exit], 2 for a usage error such as [BadParameter], 1 for any
    other exception. *)
Definition exit_code {A} (r : result A) : Z :=
  match r with
  | Ok _ => 0
  | Raise (Exit code) => code
  | Raise (BadParameter _) => 2
  | Raise _ => 1
  end.

(** The Parquet files on disk after the writes of a trace: each write
    replaces whatever the path held. *)
Definition files_after (t : trace) (fs : gmap string (list value))
    : gmap string (list value) :=
  fold_left
    (fun fs e =>
       match e with
       | ToParquet path records => <[path := records]> fs
       | _ => fs
       end)
    t fs.

Definition requests_of (t : trace) : list request :=
  flat_map (fun e => match e with Get req => [req] | _ => [] end) t.

Definition sleeps_of (t : trace) : list Q :=
  flat_map (fun e => match e with Sleep d => [d] | _ => [] end) t.

Definition writes_of (t : trace) : list string :=
  flat_map (fun e => match e with ToParquet path _ => [path] | _ => [] end) t.

(** [for x in xs: body] *)
Fixpoint mfor {A} (xs : list A) (body : A -> M unit) : M unit :=
  match xs with
  | [] => ret tt
  | x :: xs' => body x ;; mfor xs' body
  end.

(** ** The [etl] command *)

Definition default_max_retries : Z := 3.
Definition default_backoff_factor : Q := 1.

Section Etl.

Context `{PyStr}.

Variable srv : server.
(** [os.environ.get] *)
Variable environ : string -> option string.
(** [dt.datetime.strptime(s, "%Y-%m-%d").date()]; [None] is its [ValueError]. *)
Variable strptime_ymd : string -> option dt_date.
(** [dt.date.today() - dt.timedelta(days=1)] *)
Variable yesterday : dt_date.

Definition out_dir_of (listing_id : string) : string :=
  os_path_join "data" ["raw"; py_str (VStr listing_id)].

Definition out_path_of (listing_id : string) (target_date : dt_date) : string :=
  os_path_join (out_dir_of listing_id) [date_str target_date +:+ ".parquet"].

(** The body of [for listing_id in listing_ids]. *)
Definition process_listing (base_url : string) (headers : list (string * string))
    (target_date : dt_date) (listing_id : string) : M unit :=
  let metrics_url := base_url +:+ "/listings/" +:+ listing_id +:+ "/metrics" in
  let params := [("start_date", date_str target_date);
                 ("end_date", date_str target_date)] in
  metrics_json <- _get_with_retry srv metrics_url (Some headers) (Some params)
                    default_max_retries default_backoff_factor ;;
  records <- lift (extract_records metrics_json) ;;
  let out_dir := out_dir_of listing_id in
  emit (Makedirs out_dir) ;;
  let out_path := out_path_of listing_id target_date in
  emit (ToParquet out_path records) ;;
  emit (Echo false ("Wrote metrics for listing " +:+ listing_id +:+ " to " +:+ out_path)).

Definition resolve_date (date : option string) : M dt_date :=
  match date with
  | Some (String _ _ as s) =>
      match strptime_ymd s with
      | Some d => ret d
      | None => raise (BadParameter ("Invalid date format: " +:+ s +:+ ". Use YYYY-MM-DD."))
      end
  | _ => ret yesterday
  end.

Definition etl (date : option string) : M unit :=
  target_date <- resolve_date date ;;
  match environ "WHEELHOUSE_BASE_URL" with
  | Some (String _ _ as base_url) =>
      let base_url := rstrip_slash base_url in
      let api_key := environ "WHEELHOUSE_API_KEY" in
      let headers :=
        match api_key with
        | Some (String _ _ as key) => [("Authorization", "Bearer " +:+ key)]
        | _ => []
        end in
      let listings_url := base_url +:+ "/listings" in
      listings_json <- _get_with_retry srv listings_url (Some headers) None
                         default_max_retries default_backoff_factor ;;
      listing_ids <- lift (_extract_listing_ids listings_json) ;;
      match listing_ids with
      | [] => emit (Echo false "No listings returned from /listings endpoint.")
      | _ => mfor listing_ids (process_listing base_url headers target_date)
      end
  | _ =>
      emit (Echo true "Environment variable WHEELHOUSE_BASE_URL must be set.") ;;
      raise (Exit 1)
  end.

End Etl.

(** The [Authorization] header of a run. *)
Definition auth_headers (environ : string -> option string) : list (string * string) :=
  match environ "WHEELHOUSE_API_KEY" with
  | Some (String _ _ as key) => [("Authorization", "Bearer " +:+ key)]
  | _ => []
  end.

Definition metrics_url_of (base_url listing_id : string) : string :=
  base_url +:+ "/listings/" +:+ listing_id +:+ "/metrics".

Definition metrics_params (target_date : dt_date) : list (string * string) :=
  [("start_date", date_str target_date); ("end_date", date_str target_date)].

Definition wrote_message (listing_id out_path : string) : string :=
  "Wrote metrics for listing " +:+ listing_id +:+ " to " +:+ out_path.

(** ** The builtin [str] on decoded JSON, for running the model

    [repr] of a string picks its quote and escapes as CPython does for ASCII
    text; bytes above 127 pass through, which is right for the UTF-8 of
    printable characters only (CPython escapes the others).  It is used to
    run the examples, on ASCII text; the theorems are stated for any
    [PyStr]. *)

Definition str_of_Z (n : Z) : string := NilZero.string_of_int (Z.to_int n).

Definition dquote : ascii := ascii_of_nat 34.
Definition squote : ascii := ascii_of_nat 39.
Definition backslash : ascii := ascii_of_nat 92.

Fixpoint occurs (c : ascii) (s : string) : bool :=
  match s with
  | EmptyString => false
  | String c' s' => Ascii.eqb c c' || occurs c s'
  end.

Definition hex_digit (n : nat) : ascii :=
  if (n <? 10)%nat then ascii_of_nat (48 + n) else ascii_of_nat (87 + n).

Definition repr_char (quote c : ascii) : string :=
  let n := nat_of_ascii c in
  if Ascii.eqb c quote || Ascii.eqb c backslash then String backslash (String c EmptyString)
  else if (n =? 9)%nat then String backslash "t"
  else if (n =? 10)%nat then String backslash "n"
  else if (n =? 13)%nat then String backslash "r"
  else if (n <? 32)%nat || (n =? 127)%nat
       then String backslash
              (String "x" (String (hex_digit (n / 16)) (String (hex_digit (n mod 16)) EmptyString)))
  else String c EmptyString.

Fixpoint escape (quote : ascii) (s : string) : string :=
  match s with
  | EmptyString => EmptyString
  | String c s' => repr_char quote c +:+ escape quote s'
  end.

Definition repr_str (s : string) : string :=
  let quote := if occurs squote s && negb (occurs dquote s) then dquote else squote in
  String quote (escape quote s) +:+ String quote EmptyString.

Fixpoint py_repr (v : value) : string :=
  match v with
  | VNone => "None"
  | VBool true => "True"
  | VBool false => "False"
  | VInt n => str_of_Z n
  | VFloat r => r
  | VStr s => repr_str s
  | VList items => "[" +:+ String.concat ", " (map py_repr items) +:+ "]"
  | VDict entries =>
      "{" +:+ String.concat ", "
                (map (fun kv => let '(k, x) := kv in repr_str k +:+ ": " +:+ py_repr x)
                     entries)
          +:+ "}"
  end.

Definition builtin_str (v : value) : string :=
  match v with
  | VStr s => s
  | _ => py_repr v
  end.

#[export] Instance builtin_PyStr : PyStr :=
  {| py_str := builtin_str; py_str_str := fun s => eq_refl |}.

(** ** Servers and environments of the test suite *)

Definition test_environ : string -> option string :=
  fun name => if String.eqb name "WHEELHOUSE_BASE_URL" then Some "http://testserver" else None.

Definition no_environ : string -> option string := fun _ => None.

Definition july_1 : dt_date := {| year := 2025; month := 7; day := 1 |}.

Definition june_30 : dt_date := {| year := 2025; month := 6; day := 30 |}.

(** [strptime] on the dates the scenarios use. *)
Definition test_strptime : string -> option dt_date :=
  fun s => if String.eqb s "2025-07-01" then Some july_1 else None.

Definition json_ok (v : value) : response := {| status_code := 200; body_json := Some v |}.

Definition status_only (status : Z) : response :=
  {| status_code := status; body_json := None |}.

(** A server that is rate limiting, whatever it is asked. *)
Definition always_429 : server :=
  fun _ _ => {| status_code := 429; body_json := None |}.

(** A server that answers every request with the same decoded body. *)
Definition always_ok (v : value) : server :=
  fun _ _ => {| status_code := 200; body_json := Some v |}.


(** A 429 and then a 503: one sleep, two requests, the 503 raised. *)
Definition then_503_server : server :=
  fun t _ =>
    match requests_of t with
    | [] => status_only 429
    | _ => status_only 503
    end.

(** A listings payload whose one ID is an absolute path. *)
Definition absolute_id_server : server :=
  fun t req =>
    if String.eqb (url req) "http://testserver/listings" then
      json_ok (VList [VStr "/tmp"])
    else json_ok (VList [VDict [("value", VInt 100)]]).

(** [test_etl_happy_path]: two listings, with two records and one. *)
Definition happy_server : server :=
  fun _ req =>
    if String.eqb (url req) "http://testserver/listings" then
      json_ok (VList [VDict [("id", VInt 1)]; VDict [("id", VInt 2)]])
    else if String.eqb (url req) "http://testserver/listings/1/metrics" then
      json_ok (VList [VDict [("date", VStr "2025-07-01"); ("value", VInt 100)];
                      VDict [("date", VStr "2025-07-01"); ("value", VInt 200)]])
    else if String.eqb (url req) "http://testserver/listings/2/metrics" then
      json_ok (VList [VDict [("date", VStr "2025-07-01"); ("value", VInt 300)]])
    else status_only 404.

(** ** Reading a trace *)

(** Seconds spent in [time.sleep]. *)
Definition total_sleep (t : trace) : Q := fold_right Qplus 0%Q (sleeps_of t).

Definition makedirs_of (t : trace) : list string :=
  flat_map (fun e => match e with Makedirs path => [path] | _ => [] end) t.

Definition echoes_of (t : trace) : list (bool * string) :=
  flat_map (fun e => match e with Echo err message => [(err, message)] | _ => [] end) t.

(** The run got as far as the listing IDs: the date resolved to
    [target_date], the base URL is [base], and the [/listings] fetch, ending
    with trace [t1], returned a payload normalised to [listing_ids]. *)
Definition listed `{PyStr} (srv : server) (environ : string -> option string)
    (strptime_ymd : string -> option dt_date) (yesterday : dt_date)
    (date : option string) (t : trace) (target_date : dt_date) (base : string)
    (t1 : trace) (listing_ids : list string) : Prop :=
  resolve_date strptime_ymd yesterday date t = Some (Ok target_date, t) /\
  environ "WHEELHOUSE_BASE_URL" = Some base /\
  base <> EmptyString /\
  exists listings_json : value,
    _get_with_retry srv (rstrip_slash base +:+ "/listings")
      (Some (auth_headers environ)) None default_max_retries default_backoff_factor t
    = Some (Ok listings_json, t1) /\
    _extract_listing_ids listings_json = Ok listing_ids.

(** Three listings; the metrics of the second answer 500. *)
Definition second_of_three_fails_server : server :=
  fun t req =>
    if String.eqb (url req) "http://testserver/listings" then
      json_ok (VList [VInt 1; VInt 2; VInt 3])
    else if String.eqb (url req) "http://testserver/listings/2/metrics" then
      status_only 500
    else json_ok (VList [VDict [("value", VInt 100)]]).

(** [/listings] is down. *)
Definition listings_down_server : server := fun _ _ => status_only 503.

(** An environment with an API key and a base URL written with slashes at
    its end. *)
Definition keyed_environ : string -> option string :=
  fun name =>
    if String.eqb name "WHEELHOUSE_BASE_URL" then Some "http://testserver//"
    else if String.eqb name "WHEELHOUSE_API_KEY" then Some "testtoken"
    else None.

(** A listing ID that is not empty and has no slash at either end. *)
Definition plain_id (listing_id : string) : Prop :=
  listing_id <> EmptyString /\
  startswith_slash listing_id = false /\
  endswith_slash listing_id = false.

(** * Properties *)

(** ** Normalisers *)

Lemma rbind_ok {A B} (a : A) (k : A -> result B) : rbind (Ok a) k = k a.
Proof. reflexivity. Qed.

Lemma dict_keys_lookup (d : dict) (k : string) (v : value) :
  lookup_key k d = Some v -> In k (dict_keys d).
Proof.
  induction d as [|[k' v'] d IH]; simpl; [discriminate|].
  destruct (String.eqb_spec k k') as [->|Hne]; auto.
Qed.

Section NormaliserFacts.

Context `{PyStr}.

Lemma id_or_item_ok (item : value) : id_or_item item = Ok (element_id item).
Proof.
  destruct item as [| | | | |items|d]; try reflexivity.
  unfold id_or_item, element_id, dict_contains, dict_getitem.
  destruct (lookup_key "id" d); reflexivity.
Qed.

(** The [for] loop with [ids.append] builds the same list as a map. *)
Lemma rfor_append_map (items : list value) (acc : list string) :
  rfor items (fun (ids : list string) item =>
                let* i := id_or_item item in Ok (ids ++ [i])) acc
  = Ok (acc ++ map element_id items).
Proof.
  revert acc. induction items as [|item items IH]; intros acc; simpl.
  - now rewrite app_nil_r.
  - rewrite id_or_item_ok. cbn [rbind]. rewrite IH, <- app_assoc. reflexivity.
Qed.

Lemma rgen_map (items : list value) :
  rgen id_or_item items = Ok (map element_id items).
Proof.
  induction items as [|item items IH]; simpl; [reflexivity|].
  rewrite id_or_item_ok. cbn [rbind]. now rewrite IH.
Qed.

Lemma element_id_not_dict (items : list value) :
  Forall (fun v => isinstance_dict v = false) items ->
  map element_id items = map py_str items.
Proof.
  induction 1 as [|v items Hv _ IH]; simpl; [reflexivity|].
  rewrite IH. destruct v; try reflexivity. discriminate.
Qed.

Lemma element_id_with_id (ds : list dict) :
  Forall (fun d => dict_contains "id" d = true) ds ->
  map element_id (map VDict ds) = map (fun d => py_str (dict_get d "id")) ds.
Proof.
  induction 1 as [|d ds Hd _ IH]; simpl; [reflexivity|].
  rewrite IH. unfold dict_contains, dict_get in *.
  destruct (lookup_key "id" d); [reflexivity | discriminate].
Qed.

Lemma extract_keys_fallback (d : dict) :
  (forall items, lookup_key "results" d <> Some (VList items)) ->
  _extract_listing_ids (VDict d) = Ok (map (fun k => py_str (VStr k)) (dict_keys d)).
Proof.
  intros Hno. unfold _extract_listing_ids, dict_get.
  destruct (lookup_key "results" d) as [[| | | | |items|d']|]; try reflexivity.
  now destruct (Hno items).
Qed.

(** C3: every supported listings shape gives the documented IDs, in
    encounter order and without deduplication (an ID per element or key);
    any other payload gives the empty list.  The shapes are: a list (element
    rule applied to each element), in particular a list of non-mappings and a
    list of mappings that all have [id]; a mapping whose [results] is a list;
    a mapping with no [results] list (its keys). *)
Theorem extract_listing_ids_shapes :
  (forall items,
      _extract_listing_ids (VList items) = Ok (map element_id items)) /\
  (forall items,
      Forall (fun v => isinstance_dict v = false) items ->
      _extract_listing_ids (VList items) = Ok (map py_str items)) /\
  (forall ds,
      Forall (fun d => dict_contains "id" d = true) ds ->
      _extract_listing_ids (VList (map VDict ds))
      = Ok (map (fun d => py_str (dict_get d "id")) ds)) /\
  (forall d items,
      lookup_key "results" d = Some (VList items) ->
      _extract_listing_ids (VDict d) = Ok (map element_id items)) /\
  (forall d,
      (forall items, lookup_key "results" d <> Some (VList items)) ->
      _extract_listing_ids (VDict d) = Ok (dict_keys d)) /\
  (forall v,
      isinstance_list v = false -> isinstance_dict v = false ->
      _extract_listing_ids v = Ok []).
Proof.
  assert (Hlist : forall items,
             _extract_listing_ids (VList items) = Ok (map element_id items)).
  { intros items. unfold _extract_listing_ids. cbv zeta.
    now rewrite rfor_append_map. }
  repeat split.
  - exact Hlist.
  - intros items Hs. now rewrite Hlist, element_id_not_dict.
  - intros ds Hd. now rewrite Hlist, element_id_with_id.
  - intros d items Hr. unfold _extract_listing_ids, dict_get. cbv zeta.
    rewrite Hr. now rewrite rgen_map.
  - intros d Hno. rewrite extract_keys_fallback by assumption. f_equal.
    induction (dict_keys d) as [|k ks IH]; simpl; [reflexivity|].
    now rewrite py_str_str, IH.
  - intros v Hl Hd. destruct v; try reflexivity; discriminate.
Qed.

(** C10: when [results] is present but not a list, the keys of the
    top-level mapping are returned, in order, [results] among them. *)
Theorem extract_listing_ids_results_not_list (d : dict) (v : value) :
  lookup_key "results" d = Some v ->
  isinstance_list v = false ->
  _extract_listing_ids (VDict d) = Ok (map (fun k => py_str (VStr k)) (dict_keys d)) /\
  map (fun k => py_str (VStr k)) (dict_keys d) = dict_keys d /\
  In "results" (dict_keys d).
Proof.
  intros Hv Hnl. repeat split.
  - apply extract_keys_fallback. intros items Hitems.
    rewrite Hv in Hitems. injection Hitems as ->. discriminate.
  - induction (dict_keys d) as [|k ks IH]; simpl; [reflexivity|].
    now rewrite py_str_str, IH.
  - eapply dict_keys_lookup; eassumption.
Qed.

End NormaliserFacts.

(** C4: the record list for each metrics shape: nothing for [None]; a list
    as it is; for a mapping, its [data] list, else its [results] list, else
    the mapping alone; nothing for any other type. *)
Theorem extract_records_shapes :
  extract_records VNone = Ok [] /\
  (forall records, extract_records (VList records) = Ok records) /\
  (forall d records,
      lookup_key "data" d = Some (VList records) ->
      extract_records (VDict d) = Ok records) /\
  (forall d records,
      (forall l, lookup_key "data" d <> Some (VList l)) ->
      lookup_key "results" d = Some (VList records) ->
      extract_records (VDict d) = Ok records) /\
  (forall d,
      (forall l, lookup_key "data" d <> Some (VList l)) ->
      (forall l, lookup_key "results" d <> Some (VList l)) ->
      extract_records (VDict d) = Ok [VDict d]) /\
  (forall v,
      isinstance_list v = false -> isinstance_dict v = false ->
      extract_records v = Ok []).
Proof.
  assert (Hnot : forall d k,
             (forall l, lookup_key k d <> Some (VList l)) ->
             (if dict_contains k d
              then let* v := dict_getitem d k in Ok (as_list v)
              else Ok None) = Ok None).
  { intros d k Hno. unfold dict_contains, dict_getitem.
    destruct (lookup_key k d) as [[| | | | |l|d']|]; try reflexivity.
    now destruct (Hno l). }
  assert (Hyes : forall d k records,
             lookup_key k d = Some (VList records) ->
             (if dict_contains k d
              then let* v := dict_getitem d k in Ok (as_list v)
              else Ok None) = Ok (Some records)).
  { intros d k records Hk. unfold dict_contains, dict_getitem. now rewrite Hk. }
  repeat split; try reflexivity.
  - intros d records Hd. simpl. now rewrite (Hyes _ _ _ Hd).
  - intros d records Hnd Hr. simpl.
    now rewrite (Hnot _ _ Hnd), rbind_ok, (Hyes _ _ _ Hr).
  - intros d Hnd Hnr. simpl.
    now rewrite (Hnot _ _ Hnd), rbind_ok, (Hnot _ _ Hnr).
  - intros v Hl Hd. destruct v; try reflexivity; discriminate.
Qed.

(** ** The retrying fetcher *)

Lemma finish_error (r : response) :
  is_success (status_code r) = false ->
  finish r = Raise (HTTPStatusError (status_code r)).
Proof. intros Hs. unfold finish, raise_for_status. now rewrite Hs. Qed.

Lemma finish_success (r : response) :
  is_success (status_code r) = true -> finish r = response_json r.
Proof. intros Hs. unfold finish, raise_for_status. now rewrite Hs. Qed.

Lemma is_success_range (s : Z) : is_success s = true <-> 200 <= s <= 299.
Proof. unfold is_success. rewrite andb_true_iff, !Z.leb_le. tauto. Qed.

Lemma not_success_outside (s : Z) : s < 200 \/ 299 < s -> is_success s = false.
Proof.
  intros Hs. destruct (is_success s) eqn:E; [|reflexivity].
  apply is_success_range in E. lia.
Qed.

Lemma requests_of_app (t1 t2 : trace) :
  requests_of (t1 ++ t2) = requests_of t1 ++ requests_of t2.
Proof. apply flat_map_app. Qed.

Lemma sleeps_of_app (t1 t2 : trace) :
  sleeps_of (t1 ++ t2) = sleeps_of t1 ++ sleeps_of t2.
Proof. apply flat_map_app. Qed.

Lemma writes_of_app (t1 t2 : trace) :
  writes_of (t1 ++ t2) = writes_of t1 ++ writes_of t2.
Proof. apply flat_map_app. Qed.

Lemma requests_of_rounds (req : request) (b : Q) (k : nat) (attempt : Z) :
  requests_of (backoff_rounds req b attempt k) = repeat req k.
Proof.
  revert attempt. induction k as [|k IH]; intros attempt; simpl; [reflexivity|].
  f_equal. apply IH.
Qed.

Lemma sleeps_of_rounds (req : request) (b : Q) (k : nat) (attempt : Z) :
  sleeps_of (backoff_rounds req b attempt k)
  = map (fun j => backoff_delay b (attempt + Z.of_nat j)) (seq 0 k).
Proof.
  revert attempt. induction k as [|k IH]; intros attempt; [reflexivity|].
  cbn [backoff_rounds sleeps_of flat_map app seq map].
  rewrite Z.add_0_r. f_equal.
  change (flat_map _ ?l) with (sleeps_of l). rewrite IH, <- seq_shift, map_map.
  apply map_ext. intros j. f_equal. lia.
Qed.

Lemma writes_of_rounds (req : request) (b : Q) (k : nat) (attempt : Z) :
  writes_of (backoff_rounds req b attempt k) = [].
Proof.
  revert attempt. induction k as [|k IH]; intros attempt; simpl; [reflexivity|].
  apply IH.
Qed.

Section FetcherFacts.

Variable srv : server.
Variable req : request.
Variable max_retries : Z.
Variable backoff_factor : Q.

Local Abbreviation loop := (retry_loop srv).
Local Abbreviation rounds := (backoff_rounds req backoff_factor).

(** One pass of the loop, spelled out. *)
Lemma retry_loop_S (fuel : nat) (attempt : Z) (t : trace) :
  loop (S fuel) req max_retries backoff_factor attempt t =
  if (status_code (srv t req) =? 429) && (attempt <? max_retries - 1)
  then loop fuel req max_retries backoff_factor (attempt + 1)
         ((t ++ [Get req]) ++ [Sleep (backoff_delay backoff_factor attempt)])
  else Some (finish (srv t req), t ++ [Get req]).
Proof.
  cbn [retry_loop]. unfold bind at 1. unfold client_get.
  destruct ((status_code (srv t req) =? 429) && (attempt <? max_retries - 1)).
  - reflexivity.
  - unfold bind, lift, finish. destruct (raise_for_status (srv t req)); reflexivity.
Qed.

Lemma rounds_shift (t : trace) (attempt : Z) (j : nat) :
  ((t ++ [Get req]) ++ [Sleep (backoff_delay backoff_factor attempt)])
    ++ rounds (attempt + 1) j
  = t ++ rounds attempt (S j).
Proof. cbn [backoff_rounds]. now rewrite <- !app_assoc. Qed.

(** A run with exactly [k] retries: the first [k] responses are 429 while
    attempts remain, the next one ends the loop. *)
Lemma retry_loop_run (k : nat) :
  forall (fuel : nat) (attempt : Z) (t : trace),
    (k < fuel)%nat ->
    (forall j, (j < k)%nat -> status_code (srv (t ++ rounds attempt j) req) = 429) ->
    (k = 0%nat \/ attempt + Z.of_nat k <= max_retries - 1) ->
    (status_code (srv (t ++ rounds attempt k) req) <> 429
     \/ max_retries - 1 <= attempt + Z.of_nat k) ->
    loop fuel req max_retries backoff_factor attempt t
    = Some (finish (srv (t ++ rounds attempt k) req),
            t ++ rounds attempt k ++ [Get req]).
Proof.
  induction k as [|k IH]; intros fuel attempt t Hfuel H429 Hleft Hstop.
  - destruct fuel as [|fuel]; [lia|]. rewrite retry_loop_S.
    cbn [backoff_rounds] in *. rewrite app_nil_r in *. cbn [app].
    destruct Hstop as [Hne | Hlast].
    + apply Z.eqb_neq in Hne. now rewrite Hne.
    + assert ((attempt <? max_retries - 1) = false) as -> by (apply Z.ltb_ge; lia).
      now rewrite andb_false_r.
  - destruct fuel as [|fuel]; [lia|]. rewrite retry_loop_S.
    pose proof (H429 0%nat ltac:(lia)) as H0.
    cbn [backoff_rounds] in H0. rewrite app_nil_r in H0.
    rewrite H0, Z.eqb_refl.
    assert ((attempt <? max_retries - 1) = true) as -> by (apply Z.ltb_lt; lia).
    cbn [andb]. rewrite (IH fuel (attempt + 1)).
    + now rewrite rounds_shift, <- !app_assoc.
    + lia.
    + intros j Hj. rewrite rounds_shift. apply H429. lia.
    + right. lia.
    + rewrite rounds_shift. destruct Hstop as [Hne | Hlast]; [now left | right; lia].
Qed.

(** With fuel above the number of retries still allowed, the loop ends, and
    its run is one of those of [retry_loop_run]. *)
Lemma retry_loop_shape (fuel : nat) :
  forall (attempt : Z) (t : trace),
    (Z.to_nat (max_retries - 1 - attempt) < fuel)%nat ->
    exists k : nat,
      Z.of_nat k <= Z.max 0 (max_retries - 1 - attempt) /\
      (forall j, (j < k)%nat ->
                 status_code (srv (t ++ rounds attempt j) req) = 429) /\
      (status_code (srv (t ++ rounds attempt k) req) <> 429
       \/ max_retries - 1 <= attempt + Z.of_nat k) /\
      loop fuel req max_retries backoff_factor attempt t
      = Some (finish (srv (t ++ rounds attempt k) req),
              t ++ rounds attempt k ++ [Get req]).
Proof.
  induction fuel as [|fuel IH]; intros attempt t Hfuel; [lia|].
  rewrite retry_loop_S.
  destruct (status_code (srv t req) =? 429) eqn:E429;
    [destruct (attempt <? max_retries - 1) eqn:Elt|]; cbn [andb].
  - apply Z.eqb_eq in E429. apply Z.ltb_lt in Elt.
    destruct (IH (attempt + 1)
                ((t ++ [Get req]) ++ [Sleep (backoff_delay backoff_factor attempt)]))
      as (k & Hk & H429 & Hstop & Hrun); [lia|].
    exists (S k). repeat split.
    + lia.
    + intros [|j] Hj.
      * cbn [backoff_rounds]. now rewrite app_nil_r.
      * rewrite <- rounds_shift. apply H429. lia.
    + rewrite <- rounds_shift. destruct Hstop; [now left | right; lia].
    + rewrite Hrun, rounds_shift. now rewrite <- !app_assoc.
  - apply Z.ltb_ge in Elt. exists 0%nat. cbn [backoff_rounds]. rewrite app_nil_r.
    repeat split; [lia | intros j Hj; lia | right; lia].
  - apply Z.eqb_neq in E429. exists 0%nat. cbn [backoff_rounds]. rewrite app_nil_r.
    repeat split; [lia | intros j Hj; lia | now left].
Qed.

End FetcherFacts.

Section GetWithRetry.

Variable srv : server.
Variable url : string.
Variable headers : option (list (string * string)).
Variable params : option (list (string * string)).
Variable max_retries : Z.
Variable backoff_factor : Q.

Local Abbreviation req := (Build_request url (or_empty headers) params).
Local Abbreviation rounds := (backoff_rounds req backoff_factor 0).
Local Abbreviation fetch := (_get_with_retry srv url headers params max_retries backoff_factor).

Lemma get_with_retry_run (k : nat) (t : trace) :
  (forall j, (j < k)%nat -> status_code (srv (t ++ rounds j) req) = 429) ->
  (k = 0%nat \/ Z.of_nat k <= max_retries - 1) ->
  (status_code (srv (t ++ rounds k) req) <> 429 \/ max_retries - 1 <= Z.of_nat k) ->
  fetch t = Some (finish (srv (t ++ rounds k) req), t ++ rounds k ++ [Get req]).
Proof.
  intros H429 Hleft Hstop. unfold _get_with_retry, enough_fuel. cbv zeta.
  apply retry_loop_run; [lia | assumption | lia | lia].
Qed.

Lemma get_with_retry_shape (t : trace) :
  exists k : nat,
    Z.of_nat k <= Z.max 0 (max_retries - 1) /\
    (forall j, (j < k)%nat -> status_code (srv (t ++ rounds j) req) = 429) /\
    (status_code (srv (t ++ rounds k) req) <> 429 \/ max_retries - 1 <= Z.of_nat k) /\
    fetch t = Some (finish (srv (t ++ rounds k) req), t ++ rounds k ++ [Get req]).
Proof.
  unfold _get_with_retry, enough_fuel. cbv zeta.
  destruct (retry_loop_shape srv req max_retries backoff_factor
              (S (Z.to_nat (max_retries - 1))) 0 t) as (k & Hk & H429 & Hstop & Hrun).
  - rewrite Z.sub_0_r. lia.
  - exists k. rewrite Z.sub_0_r in Hk. rewrite Z.add_0_l in Hstop. auto.
Qed.

(** The fetcher always comes back: the loop fuel is never exhausted. *)
Lemma _get_with_retry_total (t : trace) :
  exists (r : result value) (new : trace), fetch t = Some (r, t ++ new).
Proof.
  destruct (get_with_retry_shape t) as (k & _ & _ & _ & Hrun). eauto.
Qed.

End GetWithRetry.

Lemma backoff_delay_doubles (b : Q) (i : Z) :
  0 <= i -> (backoff_delay b (i + 1) == 2 * backoff_delay b i)%Q.
Proof.
  intros Hi. unfold backoff_delay.
  replace (i + 1) with (Z.succ i) by lia.
  rewrite Z.pow_succ_r by assumption. rewrite inject_Z_mult. ring.
Qed.

Lemma default_backoff_in_range :
  backoff_in_range default_max_retries default_backoff_factor.
Proof.
  intros attempt Ha. unfold default_max_retries in Ha.
  assert (Hcases : attempt = 0 \/ attempt = 1) by lia.
  split; [lia|].
  destruct Hcases as [-> | ->]; split; unfold Qle; cbn; lia.
Qed.

(** The rest of C1 holds as written wherever the code can run the policy,
    that is with at least one attempt allowed and a backoff in range.
    Every call runs [k] rate-limited rounds and one last request,
    [k + 1 <= max_retries] requests in all, every one the same request:
    each of the first [k] responses was a 429 with attempts remaining and
    was followed by a sleep of [backoff_factor * 2^j]; the last response is
    either not a 429 or comes when no attempt remains.  When every response
    is a 429 the error of the last attempt is raised and nothing follows its
    request.  Each delay is twice the one before; under the default policy
    they are 1 s and 2 s. *)
Theorem get_with_retry_backoff
    (srv : server) (url : string) (headers params : option (list (string * string)))
    (max_retries : Z) (backoff_factor : Q) (t : trace) :
  let req := request_for url headers params in
  let fetch := _get_with_retry srv url headers params max_retries backoff_factor in
  1 <= max_retries ->
  backoff_in_range max_retries backoff_factor ->
  (exists (k : nat) (new : trace),
      Z.of_nat (S k) <= max_retries /\
      (forall j, (j < k)%nat ->
         status_code (srv (t ++ backoff_rounds req backoff_factor 0 j) req) = 429
         /\ Z.of_nat j < max_retries - 1) /\
      (status_code (srv (t ++ backoff_rounds req backoff_factor 0 k) req) = 429 ->
         max_retries - 1 <= Z.of_nat k) /\
      new = backoff_rounds req backoff_factor 0 k ++ [Get req] /\
      fetch t = Some (finish (srv (t ++ backoff_rounds req backoff_factor 0 k) req),
                      t ++ new) /\
      requests_of new = repeat req (S k) /\
      sleeps_of new = map (fun j => backoff_delay backoff_factor (Z.of_nat j)) (seq 0 k)) /\
  ((forall t', status_code (srv t' req) = 429) ->
     let k := Z.to_nat (max_retries - 1) in
     fetch t = Some (Raise (HTTPStatusError 429),
                     t ++ backoff_rounds req backoff_factor 0 k ++ [Get req])) /\
  (forall i, 0 <= i ->
     (backoff_delay backoff_factor (i + 1) == 2 * backoff_delay backoff_factor i)%Q) /\
  backoff_rounds req default_backoff_factor 0 (Z.to_nat (default_max_retries - 1))
  = [Get req; Sleep 1; Get req; Sleep 2].
Proof.
  intros req fetch Hmax _. repeat apply conj.
  - destruct (get_with_retry_shape srv url headers params max_retries backoff_factor t)
      as (k & Hk & H429 & Hstop & Hrun).
    exists k, (backoff_rounds req backoff_factor 0 k ++ [Get req]).
    repeat apply conj.
    + lia.
    + intros j Hj. split; [now apply H429 | lia].
    + intros Hlast. destruct Hstop as [Hne | Hge]; [contradiction | exact Hge].
    + reflexivity.
    + exact Hrun.
    + rewrite requests_of_app, requests_of_rounds.
      change (requests_of [Get req]) with [req].
      now rewrite <- repeat_cons.
    + rewrite sleeps_of_app, sleeps_of_rounds.
      change (sleeps_of [Get req]) with (@nil Q). rewrite app_nil_r.
      apply map_ext. intros j. reflexivity.
  - intros Hall k. subst fetch.
    rewrite (get_with_retry_run srv url headers params max_retries backoff_factor k).
    + rewrite finish_error; rewrite Hall; [reflexivity|].
      apply not_success_outside. lia.
    + intros j _. apply Hall.
    + subst k. lia.
    + right. subst k. lia.
  - intros i Hi. now apply backoff_delay_doubles.
  - reflexivity.
Qed.

(** C1 on the code: with [max_retries = 0] the request is sent all the
    same.  That is one request where the claim, and the docstring's "maximum
    number of attempts (including the initial attempt)", allow none. *)
Lemma get_with_retry_zero_attempts_still_requests :
  exists t' : trace,
    _get_with_retry (always_ok (VList [])) "http://testserver/listings" None None 0 1 []
    = Some (Ok (VList []), t') /\
    requests_of t' = [request_for "http://testserver/listings" None None] /\
    ~ (Z.of_nat (List.length (requests_of t')) <= 0).
Proof.
  eexists. split; [reflexivity|]. split; [reflexivity|]. simpl. lia.
Qed.

(** C2: a response with an error status other than 429 ends the call at
    once with [HTTPStatusError] carrying that status, whether it answers the
    first request or comes after [k] rate-limited rounds: the trace ends with
    its request, so no sleep and no request follows it.  A 2xx response makes
    the call return what [response.json()] decodes. *)
Theorem get_with_retry_other_status
    (srv : server) (url : string) (headers params : option (list (string * string)))
    (max_retries : Z) (backoff_factor : Q) (t : trace) (k : nat) :
  let req := request_for url headers params in
  let before := t ++ backoff_rounds req backoff_factor 0 k in
  let r := srv before req in
  (forall j, (j < k)%nat ->
     status_code (srv (t ++ backoff_rounds req backoff_factor 0 j) req) = 429) ->
  (k = 0%nat \/ Z.of_nat k <= max_retries - 1) ->
  (400 <= status_code r <= 599 -> status_code r <> 429 ->
     _get_with_retry srv url headers params max_retries backoff_factor t
     = Some (Raise (HTTPStatusError (status_code r)), before ++ [Get req])) /\
  (200 <= status_code r <= 299 ->
     _get_with_retry srv url headers params max_retries backoff_factor t
     = Some (response_json r, before ++ [Get req])
     /\ forall v, body_json r = Some v -> response_json r = Ok v).
Proof.
  intros req before r H429 Hleft.
  assert (Hrun : status_code r <> 429 ->
                 _get_with_retry srv url headers params max_retries backoff_factor t
                 = Some (finish r, before ++ [Get req])).
  { intros Hne. subst before. rewrite <- app_assoc.
    apply get_with_retry_run; [assumption | assumption | now left]. }
  split.
  - intros Herr Hne. rewrite (Hrun Hne), finish_error; [reflexivity|].
    apply not_success_outside. lia.
  - intros Hok. split.
    + rewrite Hrun by lia. rewrite finish_success; [reflexivity|].
      now apply is_success_range.
    + intros v Hv. unfold response_json. now rewrite Hv.
Qed.

(** C9: with [max_retries <= 1] a 429 is raised after the one request,
    without any sleep: [attempt < max_retries - 1] is already false at the
    first attempt. *)
Theorem get_with_retry_no_retry_budget
    (srv : server) (url : string) (headers params : option (list (string * string)))
    (max_retries : Z) (backoff_factor : Q) (t : trace) :
  let req := request_for url headers params in
  max_retries <= 1 ->
  status_code (srv t req) = 429 ->
  (0 <? max_retries - 1) = false /\
  exists new : trace,
    _get_with_retry srv url headers params max_retries backoff_factor t
    = Some (Raise (HTTPStatusError 429), t ++ new) /\
    requests_of new = [req] /\
    sleeps_of new = [].
Proof.
  intros req Hmax H429. split; [apply Z.ltb_ge; lia|].
  exists [Get req]. split; [|split; reflexivity].
  subst req. unfold request_for in *.
  rewrite (get_with_retry_run srv url headers params max_retries backoff_factor 0).
  - cbn [backoff_rounds app]. rewrite app_nil_r.
    rewrite finish_error; rewrite H429; [reflexivity|].
    apply not_success_outside. lia.
  - intros j Hj. lia.
  - now left.
  - right. lia.
Qed.

(** ** The [etl] command *)

Lemma files_after_app (t1 t2 : trace) (fs : gmap string (list value)) :
  files_after (t1 ++ t2) fs = files_after t2 (files_after t1 fs).
Proof. apply fold_left_app. Qed.

(** A write replaces the file: what the path held before does not matter. *)
Lemma files_after_write (t : trace) (path : string) (records : list value)
    (fs : gmap string (list value)) :
  files_after (t ++ [ToParquet path records]) fs !! path = Some records.
Proof. rewrite files_after_app. simpl. apply lookup_insert_eq. Qed.

Lemma files_after_no_writes (t : trace) (fs : gmap string (list value)) :
  writes_of t = [] -> files_after t fs = fs.
Proof.
  revert fs. induction t as [|e t IH]; intros fs Hw; [reflexivity|].
  destruct e; simpl in *; try (now apply IH). discriminate.
Qed.

Section EtlFacts.

Context `{PyStr}.

Variable srv : server.
Variable environ : string -> option string.
Variable strptime_ymd : string -> option dt_date.
Variable yesterday : dt_date.

Local Abbreviation run := (etl srv environ strptime_ymd yesterday).
Local Abbreviation fetch_listings base :=
  (_get_with_retry srv (rstrip_slash base +:+ "/listings")
     (Some (auth_headers environ)) None default_max_retries default_backoff_factor).
Local Abbreviation fetch_metrics base_url headers target_date listing_id :=
  (_get_with_retry srv (metrics_url_of base_url listing_id)
     (Some headers) (Some (metrics_params target_date))
     default_max_retries default_backoff_factor).

(** Resolving the date touches nothing outside. *)
Lemma resolve_date_trace (date : option string) (t : trace) :
  exists r, resolve_date strptime_ymd yesterday date t = Some (r, t).
Proof.
  unfold resolve_date. destruct date as [[|c s]|]; try (eexists; reflexivity).
  destruct (strptime_ymd (String c s)); eexists; reflexivity.
Qed.

(** Up to the listing IDs: a run whose date resolves and whose base URL is
    set fetches [/listings] and normalises the payload. *)
Lemma etl_after_listings (date : option string) (t t1 : trace)
    (target_date : dt_date) (base : string) (listings_json : value)
    (listing_ids : list string) :
  resolve_date strptime_ymd yesterday date t = Some (Ok target_date, t) ->
  environ "WHEELHOUSE_BASE_URL" = Some base ->
  base <> EmptyString ->
  fetch_listings base t = Some (Ok listings_json, t1) ->
  _extract_listing_ids listings_json = Ok listing_ids ->
  run date t =
  match listing_ids with
  | [] => emit (Echo false "No listings returned from /listings endpoint.") t1
  | _ => mfor listing_ids
           (process_listing srv (rstrip_slash base) (auth_headers environ) target_date) t1
  end.
Proof.
  intros Hdate Hbase Hne Hfetch Hids. unfold etl.
  unfold bind at 1. rewrite Hdate. rewrite Hbase.
  destruct base as [|c base]; [contradiction|].
  unfold bind at 1. fold (auth_headers environ). rewrite Hfetch.
  unfold bind at 1. unfold lift. rewrite Hids.
  destruct listing_ids; reflexivity.
Qed.


(** One listing whose fetch raises: the exception leaves [process_listing],
    and the loop, as it is. *)
Lemma mfor_raise {A} (body : A -> M unit) (x : A) (xs : list A) (t t1 : trace) (e : exn) :
  body x t = Some (Raise e, t1) -> mfor (x :: xs) body t = Some (Raise e, t1).
Proof. intros Hx. cbn [mfor]. unfold bind. now rewrite Hx. Qed.


End EtlFacts.

(** Whatever a fetch returns, its events are rounds of request and sleep and
    one last request, all for the same request. *)
Lemma get_with_retry_events (srv : server) (url : string)
    (headers params : option (list (string * string))) (max_retries : Z)
    (backoff_factor : Q) (t t1 : trace) (r : result value) :
  _get_with_retry srv url headers params max_retries backoff_factor t = Some (r, t1) ->
  exists k : nat,
    t1 = t ++ backoff_rounds (request_for url headers params) backoff_factor 0 k
           ++ [Get (request_for url headers params)].
Proof.
  intros Hrun.
  destruct (get_with_retry_shape srv url headers params max_retries backoff_factor t)
    as (k & _ & _ & _ & Hk).
  rewrite Hk in Hrun. injection Hrun as _ <-. now exists k.
Qed.

(** ** Claims on the command *)

(** C6: when the listings payload gives no ID, the run echoes that and
    returns (exit status 0); everything it requested was [/listings], and it
    wrote no file. *)
Theorem etl_no_listings `{PyStr}
    (srv : server) (environ : string -> option string)
    (strptime_ymd : string -> option dt_date) (yesterday : dt_date)
    (date : option string) (t t1 : trace) (target_date : dt_date) (base : string)
    (listings_json : value) :
  let listings_url := rstrip_slash base +:+ "/listings" in
  resolve_date strptime_ymd yesterday date t = Some (Ok target_date, t) ->
  environ "WHEELHOUSE_BASE_URL" = Some base ->
  base <> EmptyString ->
  _get_with_retry srv listings_url (Some (auth_headers environ)) None
    default_max_retries default_backoff_factor t = Some (Ok listings_json, t1) ->
  _extract_listing_ids listings_json = Ok [] ->
  exists new : trace,
    etl srv environ strptime_ymd yesterday date t = Some (Ok tt, t ++ new) /\
    exit_code (Ok tt : result unit) = 0 /\
    In (Echo false "No listings returned from /listings endpoint.") new /\
    (forall req, In req (requests_of new) -> url req = listings_url) /\
    writes_of new = [] /\
    (forall fs, files_after (t ++ new) fs = files_after t fs).
Proof.
  intros listings_url Hdate Hbase Hne Hfetch Hids.
  destruct (get_with_retry_events _ _ _ _ _ _ _ _ _ Hfetch) as (k & ->).
  set (req := request_for listings_url (Some (auth_headers environ)) None) in *.
  set (msg := Echo false "No listings returned from /listings endpoint.").
  exists ((backoff_rounds req default_backoff_factor 0 k ++ [Get req]) ++ [msg]).
  assert (Hw : writes_of ((backoff_rounds req default_backoff_factor 0 k ++ [Get req])
                            ++ [msg]) = []).
  { now rewrite !writes_of_app, writes_of_rounds. }
  repeat apply conj.
  - rewrite (etl_after_listings srv environ strptime_ymd yesterday date t _
               target_date base listings_json [] Hdate Hbase Hne Hfetch Hids).
    unfold emit. now rewrite <- !app_assoc.
  - reflexivity.
  - apply in_or_app. right. now left.
  - intros r Hr. rewrite !requests_of_app, requests_of_rounds in Hr.
    cbn in Hr. rewrite app_nil_r in Hr.
    apply in_app_or in Hr. destruct Hr as [Hr | [<- | []]]; [|reflexivity].
    apply repeat_spec in Hr. now subst r.
  - exact Hw.
  - intros fs. rewrite files_after_app. now apply files_after_no_writes.
Qed.

(** C7, as the code has it.  With the base URL unset or empty the run sends
    no request and ends with a non-zero status.  When the date argument is
    absent or parses, that is the message on standard error and
    [typer.Exit(code=1)]; a date that does not parse is rejected first, as a
    usage error. *)
Theorem etl_missing_base_url `{PyStr}
    (srv : server) (environ : string -> option string)
    (strptime_ymd : string -> option dt_date) (yesterday : dt_date)
    (date : option string) (t : trace) :
  environ "WHEELHOUSE_BASE_URL" = None \/ environ "WHEELHOUSE_BASE_URL" = Some EmptyString ->
  exists (r : result unit) (new : trace),
    etl srv environ strptime_ymd yesterday date t = Some (r, t ++ new) /\
    requests_of new = [] /\
    exit_code r <> 0 /\
    (forall target_date,
        resolve_date strptime_ymd yesterday date t = Some (Ok target_date, t) ->
        r = Raise (Exit 1) /\
        exit_code r = 1 /\
        new = [Echo true "Environment variable WHEELHOUSE_BASE_URL must be set."]).
Proof.
  intros Hbase. unfold etl. unfold bind at 1.
  destruct (resolve_date_trace strptime_ymd yesterday date t) as ([target|e] & Hr);
    rewrite Hr.
  - exists (Raise (Exit 1)),
      [Echo true "Environment variable WHEELHOUSE_BASE_URL must be set."].
    repeat apply conj.
    + destruct Hbase as [-> | ->]; reflexivity.
    + reflexivity.
    + discriminate.
    + intros _ _. repeat split.
  - exists (Raise e), []. rewrite app_nil_r. repeat apply conj.
    + reflexivity.
    + reflexivity.
    + unfold resolve_date in Hr. destruct date as [[|c s]|]; try discriminate.
      destruct (strptime_ymd (String c s)); [discriminate|].
      injection Hr as <-. discriminate.
    + intros target Htarget. rewrite Htarget in Hr. discriminate.
Qed.

(** C7 as written fails when the date argument does not parse: the run ends
    on the usage error, status 2, before it looks at the base URL. *)
Lemma etl_bad_date_before_base_url :
  etl always_429 no_environ test_strptime june_30 (Some "2025-13-45") []
  = Some (Raise (BadParameter "Invalid date format: 2025-13-45. Use YYYY-MM-DD."), []) /\
  no_environ "WHEELHOUSE_BASE_URL" = None /\
  exit_code (Raise (BadParameter "Invalid date format: 2025-13-45. Use YYYY-MM-DD.")
             : result unit) <> 1.
Proof. repeat split. discriminate. Qed.


(** ** Output paths *)

Lemma endswith_slash_app (a b : string) :
  b <> EmptyString -> endswith_slash (a +:+ b) = endswith_slash b.
Proof.
  intros Hb. induction a as [|c a IH]; [reflexivity|].
  change (String c a +:+ b) with (String c (a +:+ b)).
  destruct (a +:+ b) eqn:E.
  - destruct a; cbn in E; [contradiction | discriminate].
  - cbn [endswith_slash]. exact IH.
Qed.

Lemma digits_start (n : N) :
  digits n <> EmptyString /\ startswith_slash (digits n) = false.
Proof.
  unfold digits. destruct (N.to_uint n); split; (discriminate || reflexivity).
Qed.

Lemma zfill_start (width : nat) (s : string) :
  s <> EmptyString -> startswith_slash s = false ->
  zfill width s <> EmptyString /\ startswith_slash (zfill width s) = false.
Proof.
  intros Hs Hstart. unfold zfill.
  destruct (width - String.length s)%nat as [|k]; cbn [repeat String.concat].
  - now split.
  - destruct (repeat "0" k); split; (discriminate || reflexivity).
Qed.

Lemma date_str_start (d : dt_date) (rest : string) :
  startswith_slash (date_str d +:+ rest) = false.
Proof.
  destruct (digits_start (year d)) as [Hne Hst].
  destruct (zfill_start 4 _ Hne Hst) as [Hz Hzs].
  unfold date_str.
  destruct (zfill 4 (digits (year d))) as [|c z]; [contradiction|].
  exact Hzs.
Qed.

(** For an ID that is not empty and neither starts nor ends with a slash,
    the output path is [data/raw/{listing_id}/{YYYY-MM-DD}.parquet]. *)
Lemma out_path_template `{PyStr} (listing_id : string) (target_date : dt_date) :
  listing_id <> EmptyString ->
  startswith_slash listing_id = false ->
  endswith_slash listing_id = false ->
  out_path_of listing_id target_date
  = "data/raw/" +:+ listing_id +:+ "/" +:+ date_str target_date +:+ ".parquet".
Proof.
  intros Hne Hstart Hend.
  unfold out_path_of, out_dir_of, os_path_join. cbn [fold_left].
  rewrite py_str_str.
  assert (Hdir : join_step (join_step "data" "raw") listing_id = "data/raw/" +:+ listing_id).
  { unfold join_step at 1. rewrite Hstart. reflexivity. }
  rewrite Hdir. unfold join_step.
  rewrite date_str_start.
  rewrite (endswith_slash_app "data/raw/" listing_id Hne), Hend.
  reflexivity.
Qed.

(** The path is a function of the listing ID and the date alone, and a
    rerun that writes it again leaves exactly the new records there. *)
Lemma rerun_overwrites `{PyStr} (listing_id : string) (target_date : dt_date)
    (first second : trace) (old new : list value) (fs : gmap string (list value)) :
  let path := out_path_of listing_id target_date in
  files_after ((first ++ [ToParquet path old]) ++ second ++ [ToParquet path new]) fs !! path
  = Some new.
Proof. intros path. rewrite app_assoc. apply files_after_write. Qed.

(** C5 on the code: [os.path.join] drops [data/raw] when the listing ID
    starts with a slash, so the file of listing [/tmp] is written outside
    the documented layout. *)
Theorem out_path_absolute_listing_id :
  out_dir_of "/tmp" = "/tmp" /\
  out_path_of "/tmp" july_1 = "/tmp/2025-07-01.parquet" /\
  out_path_of "/tmp" july_1 <> "data/raw//tmp/2025-07-01.parquet" /\
  exists t' : trace,
    etl absolute_id_server test_environ test_strptime june_30 (Some "2025-07-01") []
    = Some (Ok tt, t') /\
    writes_of t' = ["/tmp/2025-07-01.parquet"].
Proof.
  repeat apply conj; try reflexivity.
  - discriminate.
  - eexists. split; vm_compute; reflexivity.
Qed.

(** ** Every run ends *)

Lemma mfor_total {A} (body : A -> M unit) (xs : list A) :
  (forall x t, exists r new, body x t = Some (r, t ++ new)) ->
  forall t, exists r new, mfor xs body t = Some (r, t ++ new).
Proof.
  intros Hbody. induction xs as [|x xs IH]; intros t.
  - exists (Ok tt), []. cbn. now rewrite app_nil_r.
  - cbn [mfor]. unfold bind. destruct (Hbody x t) as (r & new & ->).
    destruct r as [[]|e].
    + destruct (IH (t ++ new)) as (r' & new' & ->).
      exists r', (new ++ new'). now rewrite app_assoc.
    + now exists (Raise e), new.
Qed.

Lemma process_listing_total `{PyStr} (srv : server) (base_url : string)
    (headers : list (string * string)) (target_date : dt_date)
    (listing_id : string) (t : trace) :
  exists r new,
    process_listing srv base_url headers target_date listing_id t = Some (r, t ++ new).
Proof.
  unfold process_listing. unfold bind at 1.
  destruct (_get_with_retry_total srv
              (base_url +:+ "/listings/" +:+ listing_id +:+ "/metrics") (Some headers)
              (Some [("start_date", date_str target_date);
                     ("end_date", date_str target_date)])
              default_max_retries default_backoff_factor t) as (r & new & ->).
  destruct r as [metrics_json|e]; [|now exists (Raise e), new].
  unfold bind at 1. unfold lift.
  destruct (extract_records metrics_json) as [records|e]; [|now exists (Raise e), new].
  unfold bind, emit. eexists (Ok tt), (new ++ [_; _; _]).
  now rewrite <- !app_assoc.
Qed.

(** The command never hangs in the model: whatever the server answers,
    [etl] comes back with a result, having only added to the trace. *)
Lemma etl_total `{PyStr} (srv : server) (environ : string -> option string)
    (strptime_ymd : string -> option dt_date) (yesterday : dt_date)
    (date : option string) (t : trace) :
  exists r new, etl srv environ strptime_ymd yesterday date t = Some (r, t ++ new).
Proof.
  unfold etl. unfold bind at 1.
  destruct (resolve_date_trace strptime_ymd yesterday date t) as ([target|e] & ->).
  2: { exists (Raise e), []. now rewrite app_nil_r. }
  destruct (environ "WHEELHOUSE_BASE_URL") as [[|c base]|];
    try (eexists (Raise (Exit 1)), [_]; reflexivity).
  unfold bind at 1.
  match goal with
  | |- context [_get_with_retry ?s ?u ?h ?p ?m ?b t] =>
      destruct (_get_with_retry_total s u h p m b t) as (r & new & ->)
  end.
  destruct r as [listings_json|e]; [|now exists (Raise e), new].
  unfold bind at 1. unfold lift.
  destruct (_extract_listing_ids listings_json) as [[|i ids]|e].
  - unfold emit. eexists (Ok tt), (new ++ [_]). now rewrite <- app_assoc.
  - match goal with
    | |- context [mfor ?xs ?body (t ++ new)] =>
        destruct (mfor_total body xs
                    (fun x t' => process_listing_total srv _ _ _ x t') (t ++ new))
          as (r' & new' & ->)
    end.
    exists r', (new ++ new'). now rewrite app_assoc.
  - now exists (Raise e), new.
Qed.

(** The normalisers never raise: the [KeyError] of [item["id"]] and of
    [metrics_json["data"]] is ruled out by the [in] test before it. *)
Lemma normalisers_total `{PyStr} (payload : value) :
  (exists ids, _extract_listing_ids payload = Ok ids) /\
  (exists records, extract_records payload = Ok records).
Proof.
  split.
  - destruct payload as [| | | | |items|d]; try (eexists; reflexivity).
    + unfold _extract_listing_ids. cbv zeta. rewrite rfor_append_map.
      eexists. reflexivity.
    + unfold _extract_listing_ids, dict_get. cbv zeta.
      destruct (lookup_key "results" d) as [[| | | | |items|d']|];
        try (eexists; reflexivity).
      rewrite rgen_map. eexists. reflexivity.
  - destruct payload as [| | | | |items|d]; try (eexists; reflexivity).
    unfold extract_records, dict_contains, dict_getitem.
    destruct (lookup_key "data" d) as [[| | | | |l|d']|]; cbn;
      try (eexists; reflexivity);
      destruct (lookup_key "results" d) as [[| | | | |l'|d'']|]; cbn;
      eexists; reflexivity.
Qed.

(** [test_etl_happy_path]: both files are there, with 2 rows and 1 row. *)
Example etl_happy_path :
  exists t' : trace,
    etl happy_server test_environ test_strptime june_30 (Some "2025-07-01") []
    = Some (Ok tt, t') /\
    writes_of t' = ["data/raw/1/2025-07-01.parquet"; "data/raw/2/2025-07-01.parquet"] /\
    List.length <$> (files_after t' ∅ !! "data/raw/1/2025-07-01.parquet") = Some 2%nat /\
    List.length <$> (files_after t' ∅ !! "data/raw/2/2025-07-01.parquet") = Some 1%nat.
Proof. eexists. repeat split; vm_compute; reflexivity. Qed.

(** ** The claims at concrete inputs *)

Lemma get_with_retry_backoff_default :
  _get_with_retry always_429 "http://testserver/listings" None None
    default_max_retries default_backoff_factor []
  = Some (Raise (HTTPStatusError 429),
          let req := request_for "http://testserver/listings" None None in
          [Get req; Sleep 1; Get req; Sleep 2; Get req]).
Proof.
  destruct (get_with_retry_backoff always_429 "http://testserver/listings" None None
              default_max_retries default_backoff_factor [])
    as (_ & Hall & _).
  - unfold default_max_retries. lia.
  - apply default_backoff_in_range.
  - apply Hall. intros t'. reflexivity.
Defined.

Lemma get_with_retry_other_status_witness :
  _get_with_retry then_503_server "http://testserver/listings" None None
    default_max_retries default_backoff_factor []
  = Some (Raise (HTTPStatusError 503),
          let req := request_for "http://testserver/listings" None None in
          [Get req; Sleep 1; Get req]).
Proof.
  destruct (get_with_retry_other_status then_503_server "http://testserver/listings"
              None None default_max_retries default_backoff_factor [] 1) as (Herr & _).
  - intros [|j] Hj; [reflexivity | lia].
  - right. unfold default_max_retries. lia.
  - apply Herr; cbn; lia.
Defined.

Lemma get_with_retry_no_retry_budget_witness :
  exists new : trace,
    _get_with_retry always_429 "http://testserver/listings" None None (-2) 1 []
    = Some (Raise (HTTPStatusError 429), [] ++ new) /\
    requests_of new = [request_for "http://testserver/listings" None None] /\
    sleeps_of new = [].
Proof.
  apply (get_with_retry_no_retry_budget always_429 "http://testserver/listings"
           None None (-2) 1 []).
  - lia.
  - reflexivity.
Defined.

Lemma extract_listing_ids_shapes_witness :
  _extract_listing_ids (VList [VInt 7; VStr "a7"]) = Ok ["7"; "a7"] /\
  _extract_listing_ids (VList [VDict [("id", VInt 1)]; VDict [("id", VInt 1)]])
  = Ok ["1"; "1"] /\
  _extract_listing_ids (VDict [("results", VList [VDict [("id", VInt 2)]; VInt 3])])
  = Ok ["2"; "3"] /\
  _extract_listing_ids (VDict [("b", VInt 1); ("a", VInt 2)]) = Ok ["b"; "a"] /\
  _extract_listing_ids (VStr "12") = Ok [].
Proof.
  destruct (@extract_listing_ids_shapes builtin_PyStr) as (_ & Hs & Hd & Hr & Hk & Ho).
  repeat apply conj.
  - apply (Hs [VInt 7; VStr "a7"]). repeat constructor.
  - apply (Hd [[("id", VInt 1)]; [("id", VInt 1)]]). repeat constructor.
  - apply (Hr [("results", VList [VDict [("id", VInt 2)]; VInt 3])]
              [VDict [("id", VInt 2)]; VInt 3]).
    reflexivity.
  - apply (Hk [("b", VInt 1); ("a", VInt 2)]). intros items. discriminate.
  - apply (Ho (VStr "12")); reflexivity.
Defined.

Lemma extract_listing_ids_results_not_list_witness :
  _extract_listing_ids (VDict [("count", VInt 2); ("results", VStr "none")])
  = Ok ["count"; "results"].
Proof.
  apply (@extract_listing_ids_results_not_list builtin_PyStr
           [("count", VInt 2); ("results", VStr "none")] (VStr "none"));
    reflexivity.
Defined.

Lemma extract_records_shapes_witness :
  extract_records (VDict [("data", VList [VInt 1]); ("results", VList [])]) = Ok [VInt 1] /\
  extract_records (VDict [("data", VStr "x"); ("results", VList [VInt 2])]) = Ok [VInt 2] /\
  extract_records (VDict [("value", VInt 3)]) = Ok [VDict [("value", VInt 3)]] /\
  extract_records (VInt 4) = Ok [].
Proof.
  destruct extract_records_shapes as (_ & _ & Hd & Hr & Hw & Ho).
  repeat apply conj.
  - apply (Hd [("data", VList [VInt 1]); ("results", VList [])] [VInt 1]). reflexivity.
  - apply (Hr [("data", VStr "x"); ("results", VList [VInt 2])] [VInt 2]);
      [intros l; discriminate | reflexivity].
  - apply Hw; intros l; discriminate.
  - apply Ho; reflexivity.
Defined.

Lemma etl_no_listings_witness :
  exists new : trace,
    etl (always_ok (VList [])) test_environ test_strptime june_30 (Some "2025-07-01") []
    = Some (Ok tt, [] ++ new) /\
    writes_of new = [].
Proof.
  destruct (@etl_no_listings builtin_PyStr (always_ok (VList [])) test_environ
              test_strptime june_30 (Some "2025-07-01") []
              [Get (request_for "http://testserver/listings" (Some []) None)]
              july_1 "http://testserver" (VList []))
    as (new & Hrun & _ & _ & _ & Hw & _);
    try reflexivity.
  - discriminate.
  - exists new. split; assumption.
Defined.

Lemma etl_missing_base_url_witness :
  etl always_429 no_environ test_strptime june_30 None []
  = Some (Raise (Exit 1),
          [Echo true "Environment variable WHEELHOUSE_BASE_URL must be set."]).
Proof.
  destruct (@etl_missing_base_url builtin_PyStr always_429 no_environ test_strptime
              june_30 None []) as (r & new & Hrun & _ & _ & Hexit).
  - now left.
  - destruct (Hexit june_30) as (-> & _ & ->); [reflexivity | exact Hrun].
Defined.


(** * Further properties of the code *)

(** ** Time spent backing off *)

Lemma total_sleep_app (t1 t2 : trace) :
  (total_sleep (t1 ++ t2) == total_sleep t1 + total_sleep t2)%Q.
Proof.
  unfold total_sleep. rewrite sleeps_of_app.
  induction (sleeps_of t1) as [|d ds IH]; cbn [app fold_right].
  - ring.
  - rewrite IH. ring.
Qed.

Lemma pow2_rounds (attempt : Z) (k : nat) :
  0 <= attempt ->
  2 ^ attempt * (2 ^ Z.of_nat (S k) - 1)
  = 2 ^ attempt + 2 ^ (attempt + 1) * (2 ^ Z.of_nat k - 1).
Proof.
  intros Ha. rewrite Nat2Z.inj_succ, !Z.pow_succ_r by lia.
  replace (attempt + 1) with (Z.succ attempt) by lia.
  rewrite Z.pow_succ_r by lia. ring.
Qed.

Lemma total_sleep_rounds (req : request) (b : Q) (k : nat) :
  forall attempt : Z,
    0 <= attempt ->
    (total_sleep (backoff_rounds req b attempt k)
     == inject_Z (2 ^ attempt * (2 ^ Z.of_nat k - 1)) * b)%Q.
Proof.
  induction k as [|k IH]; intros attempt Ha.
  - cbn [backoff_rounds]. unfold total_sleep. cbn.
    rewrite Z.mul_0_r. change (inject_Z 0) with 0%Q. ring.
  - change (total_sleep (backoff_rounds req b attempt (S k)))
      with (backoff_delay b attempt
            + total_sleep (backoff_rounds req b (attempt + 1) k))%Q.
    rewrite IH by lia. rewrite pow2_rounds by assumption.
    unfold backoff_delay. rewrite inject_Z_plus. ring.
Qed.

(** X1: for a backoff in range and whatever the server does, a call that
    made [k + 1] requests has slept [backoff_factor * (2^k - 1)] seconds in
    all, with [k] at most [max_retries - 1]; under the default policy that
    is never more than 3 seconds. *)
Theorem get_with_retry_total_sleep
    (srv : server) (url : string) (headers params : option (list (string * string)))
    (max_retries : Z) (backoff_factor : Q) (t : trace) :
  backoff_in_range max_retries backoff_factor ->
  exists (r : result value) (new : trace) (k : nat),
    _get_with_retry srv url headers params max_retries backoff_factor t
    = Some (r, t ++ new) /\
    List.length (requests_of new) = S k /\
    Z.of_nat k <= Z.max 0 (max_retries - 1) /\
    (total_sleep new == inject_Z (2 ^ Z.of_nat k - 1) * backoff_factor)%Q /\
    (max_retries = default_max_retries ->
     (backoff_factor == default_backoff_factor)%Q ->
     (total_sleep new <= 3)%Q).
Proof.
  intros _.
  destruct (get_with_retry_shape srv url headers params max_retries backoff_factor t)
    as (k & Hk & _ & _ & Hrun).
  eexists _, _, k. split; [exact Hrun|].
  assert (Hsleep : (total_sleep
                      (backoff_rounds (Build_request url (or_empty headers) params)
                         backoff_factor 0 k
                       ++ [Get (Build_request url (or_empty headers) params)])
                    == inject_Z (2 ^ Z.of_nat k - 1) * backoff_factor)%Q).
  { rewrite total_sleep_app, total_sleep_rounds by lia.
    change (total_sleep [Get _]) with 0%Q.
    rewrite Z.pow_0_r, Z.mul_1_l. ring. }
  repeat apply conj.
  - rewrite requests_of_app, requests_of_rounds, length_app, repeat_length.
    cbn. lia.
  - exact Hk.
  - exact Hsleep.
  - intros -> Hb. rewrite Hsleep, Hb. unfold default_backoff_factor.
    rewrite Qmult_1_r. change 3%Q with (inject_Z 3). rewrite <- Zle_Qle.
    unfold default_max_retries in Hk.
    assert (Hk2 : (k <= 2)%nat) by lia.
    destruct k as [|[|[|k]]]; cbn; lia.
Qed.

Lemma get_with_retry_total_sleep_witness :
  exists (r : result value) (new : trace),
    _get_with_retry always_429 "http://testserver/listings" None None
      default_max_retries default_backoff_factor [] = Some (r, new) /\
    (total_sleep new <= 3)%Q.
Proof.
  destruct (get_with_retry_total_sleep always_429 "http://testserver/listings" None None
              default_max_retries default_backoff_factor [] default_backoff_in_range)
    as (r & new & k & Hrun & _ & _ & _ & Hmax).
  exists r, new. split; [exact Hrun|]. apply Hmax; reflexivity.
Defined.

(** ** The shape of a run *)

Lemma echoes_of_app (t1 t2 : trace) :
  echoes_of (t1 ++ t2) = echoes_of t1 ++ echoes_of t2.
Proof. apply flat_map_app. Qed.

Lemma makedirs_of_app (t1 t2 : trace) :
  makedirs_of (t1 ++ t2) = makedirs_of t1 ++ makedirs_of t2.
Proof. apply flat_map_app. Qed.

Lemma echoes_of_rounds (req : request) (b : Q) (k : nat) (attempt : Z) :
  echoes_of (backoff_rounds req b attempt k) = [].
Proof.
  revert attempt. induction k as [|k IH]; intros attempt; simpl; [reflexivity|].
  apply IH.
Qed.

Lemma makedirs_of_rounds (req : request) (b : Q) (k : nat) (attempt : Z) :
  makedirs_of (backoff_rounds req b attempt k) = [].
Proof.
  revert attempt. induction k as [|k IH]; intros attempt; simpl; [reflexivity|].
  apply IH.
Qed.

Lemma finish_raises (r : response) (e : exn) :
  finish r = Raise e ->
  e = HTTPStatusError (status_code r) \/ e = JSONDecodeError.
Proof.
  unfold finish, raise_for_status, response_json.
  destruct (is_success (status_code r)); cbn [rbind].
  - destruct (body_json r); [discriminate|]. intros [= <-]. now right.
  - intros [= <-]. now left.
Qed.

(** What a fetch can raise, and the exit status that goes with it. *)
Lemma get_with_retry_raises (srv : server) (url : string)
    (headers params : option (list (string * string))) (max_retries : Z)
    (backoff_factor : Q) (t t1 : trace) (e : exn) :
  _get_with_retry srv url headers params max_retries backoff_factor t
  = Some (Raise e, t1) ->
  (exists status, e = HTTPStatusError status) \/ e = JSONDecodeError.
Proof.
  intros Hrun.
  destruct (get_with_retry_shape srv url headers params max_retries backoff_factor t)
    as (k & _ & _ & _ & Hk).
  rewrite Hk in Hrun. injection Hrun as Hr _.
  destruct (finish_raises _ _ Hr) as [-> | ->]; eauto.
Qed.

(** One pass of the loop body, read backwards from its outcome: the fetch
    made [k + 1 <= 3] requests for the listing's metrics; then either the
    three events of a write, or the exception of the fetch and nothing
    more. *)
Lemma process_listing_inv `{PyStr} (srv : server) (base_url : string)
    (headers : list (string * string)) (target_date : dt_date)
    (listing_id : string) (t t' : trace) (r : result unit) :
  process_listing srv base_url headers target_date listing_id t = Some (r, t') ->
  exists k : nat,
    let req := request_for (metrics_url_of base_url listing_id) (Some headers)
                 (Some (metrics_params target_date)) in
    let fetched := backoff_rounds req default_backoff_factor 0 k ++ [Get req] in
    Z.of_nat k <= 2 /\
    ((exists records,
         r = Ok tt /\
         t' = t ++ fetched
                ++ [Makedirs (out_dir_of listing_id);
                    ToParquet (out_path_of listing_id target_date) records;
                    Echo false (wrote_message listing_id
                                  (out_path_of listing_id target_date))])
     \/ (exists e,
            r = Raise e /\ t' = t ++ fetched /\
            ((exists status, e = HTTPStatusError status) \/ e = JSONDecodeError))).
Proof.
  unfold process_listing, metrics_url_of, metrics_params, request_for, wrote_message.
  cbv zeta. unfold bind at 1. intros Hrun.
  destruct (get_with_retry_shape srv
              (base_url +:+ "/listings/" +:+ listing_id +:+ "/metrics") (Some headers)
              (Some [("start_date", date_str target_date);
                     ("end_date", date_str target_date)])
              default_max_retries default_backoff_factor t)
    as (k & Hk & _ & _ & Hfetch).
  rewrite Hfetch in Hrun. exists k. split; [unfold default_max_retries in Hk; lia|].
  match type of Hrun with
  | context [finish ?resp] => destruct (finish resp) as [metrics_json|e] eqn:Hfin
  end.
  - unfold bind at 1 in Hrun. unfold lift in Hrun.
    destruct (normalisers_total metrics_json) as [_ [records Hrec]].
    rewrite Hrec in Hrun. unfold bind, emit in Hrun.
    injection Hrun as <- <-. left. exists records. split; [reflexivity|].
    cbn [or_empty]. now rewrite <- !app_assoc.
  - injection Hrun as <- <-. right. exists e. split; [reflexivity|].
    split; [reflexivity|].
    destruct (finish_raises _ _ Hfin) as [-> | ->]; eauto.
Qed.

(** A property of the events added by each pass, kept by concatenation,
    holds of the events added by the whole loop. *)
Lemma mfor_invariant {A} (body : A -> M unit) (P : trace -> Prop) :
  P [] ->
  (forall a b, P a -> P b -> P (a ++ b)) ->
  (forall x t r t', body x t = Some (r, t') -> exists new, t' = t ++ new /\ P new) ->
  forall xs t r t',
    mfor xs body t = Some (r, t') -> exists new, t' = t ++ new /\ P new.
Proof.
  intros Hnil Happ Hbody. induction xs as [|x xs IH]; intros t r t' Hrun.
  - cbn in Hrun. injection Hrun as _ <-. exists []. now rewrite app_nil_r.
  - cbn [mfor] in Hrun. unfold bind in Hrun.
    destruct (body x t) as [[[[]|e] t1]|] eqn:Hx; [| |discriminate].
    + destruct (Hbody _ _ _ _ Hx) as (n1 & -> & H1).
      destruct (IH _ _ _ Hrun) as (n2 & -> & H2).
      exists (n1 ++ n2). rewrite app_assoc. auto.
    + injection Hrun as _ <-. eauto.
Qed.

Section RunFacts.

Context `{PyStr}.

Variable srv : server.
Variable environ : string -> option string.
Variable strptime_ymd : string -> option dt_date.
Variable yesterday : dt_date.

(** From [listed] on, the run is the loop over the listing IDs. *)
Lemma etl_listed (date : option string) (t t1 : trace) (target_date : dt_date)
    (base : string) (listing_ids : list string) :
  listed srv environ strptime_ymd yesterday date t target_date base t1 listing_ids ->
  etl srv environ strptime_ymd yesterday date t =
  match listing_ids with
  | [] => emit (Echo false "No listings returned from /listings endpoint.") t1
  | _ => mfor listing_ids
           (process_listing srv (rstrip_slash base) (auth_headers environ) target_date) t1
  end.
Proof.
  intros (Hdate & Hbase & Hne & listings_json & Hfetch & Hids).
  eapply etl_after_listings; eassumption.
Qed.

End RunFacts.

(** ** Errors before and at the listings *)

(** X2: a [--date] that does not parse ends the run on [BadParameter] (exit
    status 2) whatever the environment holds: nothing was requested, echoed
    or written. *)
Theorem etl_invalid_date `{PyStr}
    (srv : server) (environ : string -> option string)
    (strptime_ymd : string -> option dt_date) (yesterday : dt_date)
    (s : string) (t : trace) :
  s <> EmptyString ->
  strptime_ymd s = None ->
  let error := BadParameter ("Invalid date format: " +:+ s +:+ ". Use YYYY-MM-DD.") in
  etl srv environ strptime_ymd yesterday (Some s) t = Some (Raise error, t) /\
  exit_code (Raise error : result unit) = 2.
Proof.
  intros Hs Hparse error. split; [|reflexivity].
  unfold etl. unfold bind at 1. unfold resolve_date.
  destruct s as [|c s]; [contradiction|]. now rewrite Hparse.
Qed.

Lemma etl_invalid_date_witness :
  etl happy_server test_environ test_strptime june_30 (Some "01/07/2025") []
  = Some (Raise (BadParameter "Invalid date format: 01/07/2025. Use YYYY-MM-DD."), []).
Proof.
  apply (@etl_invalid_date builtin_PyStr happy_server test_environ test_strptime june_30
           "01/07/2025" []); [discriminate | reflexivity].
Defined.

(** X3: when the [/listings] fetch raises, the run ends on that exception
    with exit status 1: it echoed nothing, wrote nothing, and every request
    it made was for [/listings]. *)
Theorem etl_listings_fetch_fails `{PyStr}
    (srv : server) (environ : string -> option string)
    (strptime_ymd : string -> option dt_date) (yesterday : dt_date)
    (date : option string) (t t1 : trace) (target_date : dt_date) (base : string)
    (e : exn) :
  let listings_url := rstrip_slash base +:+ "/listings" in
  resolve_date strptime_ymd yesterday date t = Some (Ok target_date, t) ->
  environ "WHEELHOUSE_BASE_URL" = Some base ->
  base <> EmptyString ->
  _get_with_retry srv listings_url (Some (auth_headers environ)) None
    default_max_retries default_backoff_factor t = Some (Raise e, t1) ->
  etl srv environ strptime_ymd yesterday date t = Some (Raise e, t1) /\
  exit_code (Raise e : result unit) = 1 /\
  exists new : trace,
    t1 = t ++ new /\
    writes_of new = [] /\
    echoes_of new = [] /\
    Forall (fun req => url req = listings_url) (requests_of new).
Proof.
  intros listings_url Hdate Hbase Hne Hfetch. repeat apply conj.
  - unfold etl. unfold bind at 1. rewrite Hdate, Hbase.
    destruct base as [|c base]; [contradiction|].
    unfold bind at 1. fold (auth_headers environ).
    fold listings_url. now rewrite Hfetch.
  - destruct (get_with_retry_raises _ _ _ _ _ _ _ _ _ Hfetch) as [[status ->] | ->];
      reflexivity.
  - destruct (get_with_retry_events _ _ _ _ _ _ _ _ _ Hfetch) as (k & ->).
    eexists. split; [reflexivity|]. repeat apply conj.
    + now rewrite writes_of_app, writes_of_rounds.
    + now rewrite echoes_of_app, echoes_of_rounds.
    + rewrite requests_of_app, requests_of_rounds. apply Forall_app. split.
      * apply Forall_forall. intros r Hr. apply repeat_spec in Hr. now subst r.
      * now constructor.
Qed.

Lemma etl_listings_fetch_fails_witness :
  let listings := request_for "http://testserver/listings" (Some []) None in
  etl listings_down_server test_environ test_strptime june_30 (Some "2025-07-01") []
  = Some (Raise (HTTPStatusError 503), [Get listings]).
Proof.
  apply (@etl_listings_fetch_fails builtin_PyStr listings_down_server test_environ
           test_strptime june_30 (Some "2025-07-01") [] _ july_1 "http://testserver");
    try reflexivity.
  discriminate.
Defined.

(** X4: a [/listings] payload that is not a list or a mapping at all (say
    [null], a number or a string), or is an empty list or mapping, is taken
    as "no listings": the run echoes the message and returns. *)
Theorem etl_unsupported_listings_payload `{PyStr}
    (srv : server) (environ : string -> option string)
    (strptime_ymd : string -> option dt_date) (yesterday : dt_date)
    (date : option string) (t t1 : trace) (target_date : dt_date) (base : string)
    (listings_json : value) :
  resolve_date strptime_ymd yesterday date t = Some (Ok target_date, t) ->
  environ "WHEELHOUSE_BASE_URL" = Some base ->
  base <> EmptyString ->
  _get_with_retry srv (rstrip_slash base +:+ "/listings") (Some (auth_headers environ))
    None default_max_retries default_backoff_factor t = Some (Ok listings_json, t1) ->
  (isinstance_list listings_json = false /\ isinstance_dict listings_json = false)
  \/ listings_json = VList [] \/ listings_json = VDict [] ->
  etl srv environ strptime_ymd yesterday date t
  = Some (Ok tt, t1 ++ [Echo false "No listings returned from /listings endpoint."]).
Proof.
  intros Hdate Hbase Hne Hfetch Hshape.
  assert (Hids : _extract_listing_ids listings_json = Ok []).
  { destruct Hshape as [[Hl Hd] | [-> | ->]]; try reflexivity.
    destruct listings_json; try reflexivity; discriminate. }
  now rewrite (etl_after_listings srv environ strptime_ymd yesterday date t t1
                 target_date base listings_json [] Hdate Hbase Hne Hfetch Hids).
Qed.

Lemma etl_unsupported_listings_payload_witness :
  let listings := request_for "http://testserver/listings" (Some []) None in
  etl (always_ok (VStr "maintenance")) test_environ test_strptime june_30 None []
  = Some (Ok tt, [Get listings; Echo false "No listings returned from /listings endpoint."]).
Proof.
  apply (@etl_unsupported_listings_payload builtin_PyStr (always_ok (VStr "maintenance"))
           test_environ test_strptime june_30 None []
           [Get (request_for "http://testserver/listings" (Some []) None)]
           june_30 "http://testserver" (VStr "maintenance")); try reflexivity.
  - discriminate.
  - left. split; reflexivity.
Defined.

(** ** What a run asks the server *)

(** Every request of a run is the [/listings] request or the metrics
    request of some listing, so what holds of those holds of all. *)
Lemma etl_requests `{PyStr}
    (srv : server) (environ : string -> option string)
    (strptime_ymd : string -> option dt_date) (yesterday : dt_date)
    (date : option string) (t : trace) (P : request -> Prop) :
  (forall base,
      environ "WHEELHOUSE_BASE_URL" = Some base -> base <> EmptyString ->
      P (request_for (rstrip_slash base +:+ "/listings")
           (Some (auth_headers environ)) None)) ->
  (forall base target_date listing_id,
      environ "WHEELHOUSE_BASE_URL" = Some base -> base <> EmptyString ->
      resolve_date strptime_ymd yesterday date t = Some (Ok target_date, t) ->
      P (request_for (metrics_url_of (rstrip_slash base) listing_id)
           (Some (auth_headers environ)) (Some (metrics_params target_date)))) ->
  exists (r : result unit) (new : trace),
    etl srv environ strptime_ymd yesterday date t = Some (r, t ++ new) /\
    Forall P (requests_of new).
Proof.
  intros Hlistings Hmetrics.
  destruct (etl_total srv environ strptime_ymd yesterday date t) as (r & new & Hrun).
  exists r, new. split; [exact Hrun|].
  unfold etl in Hrun. unfold bind at 1 in Hrun.
  destruct (resolve_date_trace strptime_ymd yesterday date t) as ([target|e] & Hdate);
    rewrite Hdate in Hrun.
  2: { injection Hrun as _ Ht. rewrite <- (app_nil_r t) in Ht at 1.
       apply app_inv_head in Ht. subst new. constructor. }
  destruct (environ "WHEELHOUSE_BASE_URL") as [[|c base]|] eqn:Hbase;
    try (cbn in Hrun; injection Hrun as _ Ht; apply app_inv_head in Ht; subst new;
         constructor).
  set (b := String c base) in *.
  assert (Hne : b <> EmptyString) by discriminate.
  unfold bind at 1 in Hrun. fold (auth_headers environ) in Hrun.
  destruct (_get_with_retry srv (rstrip_slash b +:+ "/listings")
              (Some (auth_headers environ)) None default_max_retries
              default_backoff_factor t) as [[fetched t1]|] eqn:Hfetch; [|discriminate].
  destruct (get_with_retry_events _ _ _ _ _ _ _ _ _ Hfetch) as (k & ->).
  set (lreq := request_for (rstrip_slash b +:+ "/listings")
                 (Some (auth_headers environ)) None) in *.
  assert (Hfirst : Forall P (requests_of (backoff_rounds lreq default_backoff_factor 0 k
                                            ++ [Get lreq]))).
  { rewrite requests_of_app, requests_of_rounds. apply Forall_app. split.
    - apply Forall_forall. intros q Hq. apply repeat_spec in Hq. subst q.
      now apply Hlistings.
    - constructor; [|constructor]. now apply Hlistings. }
  destruct fetched as [listings_json|e].
  2: { injection Hrun as _ Ht. apply app_inv_head in Ht. now subst new. }
  unfold bind at 1 in Hrun. unfold lift in Hrun.
  destruct (_extract_listing_ids listings_json) as [[|i ids]|e].
  - unfold emit in Hrun. injection Hrun as _ Ht.
    rewrite <- app_assoc in Ht. apply app_inv_head in Ht. subst new.
    rewrite requests_of_app. apply Forall_app. split; [exact Hfirst | constructor].
  - apply (mfor_invariant _ (fun new => Forall P (requests_of new))) in Hrun.
    + destruct Hrun as (n2 & Ht & Hn2). rewrite <- app_assoc in Ht.
      apply app_inv_head in Ht. subst new.
      rewrite requests_of_app. apply Forall_app. now split.
    + constructor.
    + intros a b' Ha Hb. rewrite requests_of_app. apply Forall_app. now split.
    + intros x t0 r0 t0' Hx.
      destruct (process_listing_inv _ _ _ _ _ _ _ _ Hx) as (j & _ & Hcase).
      set (mreq := request_for (metrics_url_of (rstrip_slash b) x)
                     (Some (auth_headers environ)) (Some (metrics_params target))) in *.
      assert (Hm : Forall P (requests_of (backoff_rounds mreq default_backoff_factor 0 j
                                            ++ [Get mreq]))).
      { rewrite requests_of_app, requests_of_rounds. apply Forall_app. split.
        - apply Forall_forall. intros q Hq. apply repeat_spec in Hq. subst q.
          now apply (Hmetrics b target x).
        - constructor; [|constructor]. now apply (Hmetrics b target x). }
      destruct Hcase as [(records & _ & ->) | (e & _ & -> & _)].
      * eexists. split; [reflexivity|].
        rewrite requests_of_app. apply Forall_app. split; [exact Hm | constructor].
      * eexists. split; [reflexivity | exact Hm].
  - injection Hrun as _ Ht. apply app_inv_head in Ht. now subst new.
Qed.

(** X5: every request of a run, for [/listings] and for each listing's
    metrics alike, carries the same headers: [Authorization: Bearer <key>]
    when [WHEELHOUSE_API_KEY] is set and not empty, and no header at all
    when it is unset or empty. *)
Theorem etl_requests_authorized `{PyStr}
    (srv : server) (environ : string -> option string)
    (strptime_ymd : string -> option dt_date) (yesterday : dt_date)
    (date : option string) (t : trace) :
  exists (r : result unit) (new : trace),
    etl srv environ strptime_ymd yesterday date t = Some (r, t ++ new) /\
    (forall key,
        environ "WHEELHOUSE_API_KEY" = Some key -> key <> EmptyString ->
        Forall (fun req => headers req = [("Authorization", "Bearer " +:+ key)])
          (requests_of new)) /\
    (environ "WHEELHOUSE_API_KEY" = None
     \/ environ "WHEELHOUSE_API_KEY" = Some EmptyString ->
     Forall (fun req => headers req = []) (requests_of new)).
Proof.
  destruct (etl_requests srv environ strptime_ymd yesterday date t
              (fun req => headers req = auth_headers environ))
    as (r & new & Hrun & Hall); try (intros; reflexivity).
  exists r, new. split; [exact Hrun|]. split.
  - intros key Hkey Hne. unfold auth_headers in Hall. rewrite Hkey in Hall.
    destruct key; [contradiction | exact Hall].
  - intros Hkey. unfold auth_headers in Hall.
    destruct Hkey as [Hkey | Hkey]; rewrite Hkey in Hall; exact Hall.
Qed.

Lemma etl_requests_authorized_witness :
  exists (r : result unit) (new : trace),
    etl happy_server keyed_environ test_strptime june_30 (Some "2025-07-01") []
    = Some (r, [] ++ new) /\
    Forall (fun req => headers req = [("Authorization", "Bearer testtoken")])
      (requests_of new).
Proof.
  destruct (@etl_requests_authorized builtin_PyStr happy_server keyed_environ
              test_strptime june_30 (Some "2025-07-01") [])
    as (r & new & Hrun & Hkey & _).
  exists r, new. split; [exact Hrun|].
  apply (Hkey "testtoken"); [reflexivity | discriminate].
Defined.

(** X6: with the base URL set, every request of a run is either
    [{base}/listings] without query parameters or, for some listing,
    [{base}/listings/{id}/metrics] with [start_date] and [end_date] both set
    to the target date, where [{base}] has lost its slashes at the end; and
    the target date is yesterday when [--date] is absent or empty. *)
Theorem etl_request_targets `{PyStr}
    (srv : server) (environ : string -> option string)
    (strptime_ymd : string -> option dt_date) (yesterday : dt_date)
    (date : option string) (t : trace) (target_date : dt_date) (base : string) :
  resolve_date strptime_ymd yesterday date t = Some (Ok target_date, t) ->
  environ "WHEELHOUSE_BASE_URL" = Some base ->
  (date = None \/ date = Some EmptyString -> target_date = yesterday) /\
  exists (r : result unit) (new : trace),
    etl srv environ strptime_ymd yesterday date t = Some (r, t ++ new) /\
    Forall
      (fun req =>
         (url req = rstrip_slash base +:+ "/listings" /\ params req = None)
         \/ (exists listing_id,
                url req = rstrip_slash base +:+ "/listings/" +:+ listing_id +:+ "/metrics"
                /\ params req = Some [("start_date", date_str target_date);
                                      ("end_date", date_str target_date)]))
      (requests_of new).
Proof.
  intros Hdate Hbase. split.
  - intros [-> | ->]; cbn in Hdate; now injection Hdate as <-.
  - apply etl_requests.
    + intros base' Hbase' _. rewrite Hbase in Hbase'. injection Hbase' as <-.
      left. split; reflexivity.
    + intros base' target' listing_id Hbase' _ Hdate'.
      rewrite Hbase in Hbase'. injection Hbase' as <-.
      rewrite Hdate in Hdate'. injection Hdate' as <-.
      right. exists listing_id. split; reflexivity.
Qed.

Lemma etl_request_targets_witness :
  exists (r : result unit) (new : trace),
    etl happy_server keyed_environ test_strptime june_30 None [] = Some (r, [] ++ new) /\
    Forall
      (fun req =>
         (url req = "http://testserver/listings" /\ params req = None)
         \/ (exists listing_id,
                url req = "http://testserver/listings/" +:+ listing_id +:+ "/metrics"
                /\ params req = Some [("start_date", "2025-06-30");
                                      ("end_date", "2025-06-30")]))
      (requests_of new).
Proof.
  apply (@etl_request_targets builtin_PyStr happy_server keyed_environ test_strptime
           june_30 None [] june_30 "http://testserver//"); reflexivity.
Defined.

(** ** The loop over the listings *)

Lemma mfor_app {A} (body : A -> M unit) (xs ys : list A) (t t1 : trace) :
  mfor xs body t = Some (Ok tt, t1) ->
  mfor (xs ++ ys) body t = mfor ys body t1.
Proof.
  revert t. induction xs as [|x xs IH]; intros t Hxs.
  - cbn in Hxs. now injection Hxs as <-.
  - cbn [mfor app] in *. unfold bind in *.
    destruct (body x t) as [[[[]|e] t']|]; try discriminate. now apply IH.
Qed.

Lemma process_listing_raise `{PyStr} (srv : server) (base_url : string)
    (headers : list (string * string)) (target_date : dt_date)
    (listing_id : string) (t t1 : trace) (e : exn) :
  _get_with_retry srv (metrics_url_of base_url listing_id) (Some headers)
    (Some (metrics_params target_date)) default_max_retries default_backoff_factor t
  = Some (Raise e, t1) ->
  process_listing srv base_url headers target_date listing_id t = Some (Raise e, t1).
Proof.
  intros Hfetch. unfold process_listing.
  fold (metrics_url_of base_url listing_id). fold (metrics_params target_date).
  unfold bind at 1. now rewrite Hfetch.
Qed.

(** A loop that returns has, for each listing in turn, created its
    directory, written its file and echoed its line. *)
Lemma mfor_written `{PyStr} (srv : server) (base_url : string)
    (headers : list (string * string)) (target_date : dt_date)
    (listing_ids : list string) :
  forall t t' : trace,
    mfor listing_ids (process_listing srv base_url headers target_date) t
    = Some (Ok tt, t') ->
    exists new : trace,
      t' = t ++ new /\
      makedirs_of new = map out_dir_of listing_ids /\
      writes_of new = map (fun id => out_path_of id target_date) listing_ids /\
      echoes_of new
      = map (fun id => (false, wrote_message id (out_path_of id target_date)))
          listing_ids.
Proof.
  induction listing_ids as [|x xs IH]; intros t t' Hrun.
  - cbn in Hrun. injection Hrun as <-. exists []. now rewrite app_nil_r.
  - cbn [mfor] in Hrun. unfold bind in Hrun.
    destruct (process_listing srv base_url headers target_date x t)
      as [[[[]|e] t1]|] eqn:Hx; try discriminate.
    destruct (process_listing_inv _ _ _ _ _ _ _ _ Hx)
      as (k & _ & [(records & _ & ->) | (e & He & _)]); [|discriminate].
    destruct (IH _ _ Hrun) as (n2 & -> & Hm & Hw & He).
    eexists. split; [now rewrite <- !app_assoc|].
    rewrite !makedirs_of_app, !writes_of_app, !echoes_of_app.
    rewrite makedirs_of_rounds, writes_of_rounds, echoes_of_rounds, Hm, Hw, He.
    repeat split.
Qed.

(** However it ends, a loop over [n] listings has made at most [3 n]
    requests and at most [n] writes. *)
Lemma mfor_bounded `{PyStr} (srv : server) (base_url : string)
    (headers : list (string * string)) (target_date : dt_date)
    (listing_ids : list string) :
  forall (t t' : trace) (r : result unit),
    mfor listing_ids (process_listing srv base_url headers target_date) t
    = Some (r, t') ->
    exists new : trace,
      t' = t ++ new /\
      (List.length (requests_of new) <= 3 * List.length listing_ids)%nat /\
      (List.length (writes_of new) <= List.length listing_ids)%nat.
Proof.
  induction listing_ids as [|x xs IH]; intros t t' r Hrun.
  - cbn in Hrun. injection Hrun as _ <-. exists []. rewrite app_nil_r. cbn. auto.
  - cbn [mfor] in Hrun. unfold bind in Hrun.
    destruct (process_listing srv base_url headers target_date x t)
      as [[r1 t1]|] eqn:Hx; [|discriminate].
    destruct (process_listing_inv _ _ _ _ _ _ _ _ Hx) as (k & Hk & Hcase).
    assert (Hreq : forall rest,
               List.length
                 (requests_of
                    (backoff_rounds
                       (request_for (metrics_url_of base_url x) (Some headers)
                          (Some (metrics_params target_date)))
                       default_backoff_factor 0 k
                     ++ [Get (request_for (metrics_url_of base_url x) (Some headers)
                                (Some (metrics_params target_date)))] ++ rest))
               = (S k + List.length (requests_of rest))%nat).
    { intros rest. rewrite !requests_of_app, requests_of_rounds, !length_app,
        repeat_length. cbn. lia. }
    destruct Hcase as [(records & -> & ->) | (e & -> & -> & _)].
    + destruct (IH _ _ _ Hrun) as (n2 & -> & Hr2 & Hw2).
      eexists. split; [now rewrite <- !app_assoc|].
      rewrite Hreq. rewrite !writes_of_app, writes_of_rounds, !length_app.
      rewrite requests_of_app, length_app. cbn. lia.
    + injection Hrun as _ <-.
      eexists. split; [reflexivity|].
      rewrite <- (app_nil_r [Get _]), Hreq, writes_of_app, writes_of_rounds.
      cbn. lia.
Qed.

(** X7: a run that returns after listing some IDs has handled them one by
    one in the order of the payload, duplicates included: for each it
    created the directory, wrote the file and echoed the line, and it wrote
    nothing else. *)
Theorem etl_writes_in_order `{PyStr}
    (srv : server) (environ : string -> option string)
    (strptime_ymd : string -> option dt_date) (yesterday : dt_date)
    (date : option string) (t t1 t' : trace) (target_date : dt_date) (base : string)
    (listing_ids : list string) :
  listed srv environ strptime_ymd yesterday date t target_date base t1 listing_ids ->
  listing_ids <> [] ->
  etl srv environ strptime_ymd yesterday date t = Some (Ok tt, t') ->
  exists new : trace,
    t' = t1 ++ new /\
    makedirs_of new = map out_dir_of listing_ids /\
    writes_of new = map (fun id => out_path_of id target_date) listing_ids /\
    echoes_of new
    = map (fun id => (false, wrote_message id (out_path_of id target_date)))
        listing_ids.
Proof.
  intros Hlisted Hne Hrun.
  rewrite (etl_listed _ _ _ _ _ _ _ _ _ _ Hlisted) in Hrun.
  destruct listing_ids as [|x xs]; [contradiction|].
  now apply mfor_written in Hrun.
Qed.

Lemma etl_writes_in_order_witness :
  exists t' : trace,
    etl happy_server test_environ test_strptime june_30 (Some "2025-07-01") []
    = Some (Ok tt, t') /\
    writes_of t' = ["data/raw/1/2025-07-01.parquet"; "data/raw/2/2025-07-01.parquet"].
Proof.
  pose (listings := request_for "http://testserver/listings" (Some []) None).
  eexists. split; [vm_compute; reflexivity|].
  match goal with
  | |- writes_of ?t' = _ =>
      destruct (@etl_writes_in_order builtin_PyStr happy_server test_environ
                  test_strptime june_30 (Some "2025-07-01") [] [Get listings] t'
                  july_1 "http://testserver" ["1"; "2"])
        as (new & Ht & _ & Hw & _)
  end.
  - repeat split; try discriminate. eexists. split; reflexivity.
  - discriminate.
  - vm_compute. reflexivity.
  - rewrite Ht. change (writes_of ([Get listings] ++ new)) with (writes_of new).
    exact Hw.
Defined.

(** X8: the first listing whose fetch raises ends the run on that
    exception, exit status 1.  The files of the listings before it stay as
    written, nothing is written for it, and the listings after it are never
    asked for: every request from its first one on is for its own
    metrics. *)
Theorem etl_fails_fast `{PyStr}
    (srv : server) (environ : string -> option string)
    (strptime_ymd : string -> option dt_date) (yesterday : dt_date)
    (date : option string) (t t1 t2 t3 : trace) (target_date : dt_date)
    (base : string) (done rest : list string) (failing : string) (e : exn) :
  let body := process_listing srv (rstrip_slash base) (auth_headers environ) target_date in
  listed srv environ strptime_ymd yesterday date t target_date base t1
    (done ++ failing :: rest) ->
  mfor done body t1 = Some (Ok tt, t2) ->
  _get_with_retry srv (metrics_url_of (rstrip_slash base) failing)
    (Some (auth_headers environ)) (Some (metrics_params target_date))
    default_max_retries default_backoff_factor t2 = Some (Raise e, t3) ->
  etl srv environ strptime_ymd yesterday date t = Some (Raise e, t3) /\
  exit_code (Raise e : result unit) = 1 /\
  exists new : trace,
    t3 = t2 ++ new /\
    writes_of new = [] /\
    (forall fs, files_after t3 fs = files_after t2 fs) /\
    Forall (fun req => url req = metrics_url_of (rstrip_slash base) failing)
      (requests_of new).
Proof.
  intros body Hlisted Hdone Hfetch. repeat apply conj.
  - rewrite (etl_listed _ _ _ _ _ _ _ _ _ _ Hlisted).
    assert (Hloop : mfor (done ++ failing :: rest) body t1 = Some (Raise e, t3)).
    { rewrite (mfor_app _ _ _ _ _ Hdone).
      apply mfor_raise. now apply process_listing_raise. }
    destruct done; exact Hloop.
  - destruct (get_with_retry_raises _ _ _ _ _ _ _ _ _ Hfetch) as [[status ->] | ->];
      reflexivity.
  - destruct (get_with_retry_events _ _ _ _ _ _ _ _ _ Hfetch) as (k & ->).
    eexists. split; [reflexivity|].
    assert (Hw : writes_of
                   (backoff_rounds
                      (request_for (metrics_url_of (rstrip_slash base) failing)
                         (Some (auth_headers environ))
                         (Some (metrics_params target_date)))
                      default_backoff_factor 0 k
                    ++ [Get (request_for (metrics_url_of (rstrip_slash base) failing)
                               (Some (auth_headers environ))
                               (Some (metrics_params target_date)))]) = []).
    { now rewrite writes_of_app, writes_of_rounds. }
    repeat apply conj.
    + exact Hw.
    + intros fs. rewrite files_after_app. now apply files_after_no_writes.
    + rewrite requests_of_app, requests_of_rounds. apply Forall_app. split.
      * apply Forall_forall. intros r Hr. apply repeat_spec in Hr. now subst r.
      * now constructor.
Qed.

Lemma etl_fails_fast_witness :
  exists t' : trace,
    etl second_of_three_fails_server test_environ test_strptime june_30
      (Some "2025-07-01") [] = Some (Raise (HTTPStatusError 500), t') /\
    writes_of t' = ["data/raw/1/2025-07-01.parquet"].
Proof.
  pose (listings := request_for "http://testserver/listings" (Some []) None).
  pose (metrics := fun id : string =>
          request_for ("http://testserver/listings/" +:+ id +:+ "/metrics") (Some [])
            (Some (metrics_params july_1))).
  pose (t2 := [Get listings; Get (metrics "1"); Makedirs "data/raw/1";
               ToParquet "data/raw/1/2025-07-01.parquet" [VDict [("value", VInt 100)]];
               Echo false (wrote_message "1" "data/raw/1/2025-07-01.parquet")]).
  destruct (@etl_fails_fast builtin_PyStr second_of_three_fails_server test_environ
              test_strptime june_30 (Some "2025-07-01") [] [Get listings] t2
              (t2 ++ [Get (metrics "2")]) july_1 "http://testserver" ["1"] ["3"] "2"
              (HTTPStatusError 500)) as (Hrun & _ & _).
  - repeat split; try discriminate. eexists. split; reflexivity.
  - reflexivity.
  - reflexivity.
  - eexists. split; [exact Hrun | reflexivity].
Defined.

(** X9: a run that listed [n] IDs makes at most [3 (n + 1)] requests and
    at most [n] writes, however the server answers. *)
Theorem etl_requests_bounded `{PyStr}
    (srv : server) (environ : string -> option string)
    (strptime_ymd : string -> option dt_date) (yesterday : dt_date)
    (date : option string) (t t1 : trace) (target_date : dt_date) (base : string)
    (listing_ids : list string) :
  listed srv environ strptime_ymd yesterday date t target_date base t1 listing_ids ->
  exists (r : result unit) (new : trace),
    etl srv environ strptime_ymd yesterday date t = Some (r, t ++ new) /\
    (List.length (requests_of new) <= 3 * (List.length listing_ids + 1))%nat /\
    (List.length (writes_of new) <= List.length listing_ids)%nat.
Proof.
  intros Hlisted.
  rewrite (etl_listed _ _ _ _ _ _ _ _ _ _ Hlisted).
  destruct Hlisted as (_ & _ & _ & listings_json & Hfetch & _).
  destruct (get_with_retry_shape srv (rstrip_slash base +:+ "/listings")
              (Some (auth_headers environ)) None default_max_retries
              default_backoff_factor t) as (k & Hk & _ & _ & Hshape).
  rewrite Hshape in Hfetch. injection Hfetch as _ <-.
  unfold default_max_retries in Hk.
  set (lreq := Build_request (rstrip_slash base +:+ "/listings")
                 (auth_headers environ) None) in *.
  assert (Hfirst : forall rest,
             List.length (requests_of (backoff_rounds lreq default_backoff_factor 0 k
                                         ++ [Get lreq] ++ rest))
             = (S k + List.length (requests_of rest))%nat).
  { intros rest. rewrite !requests_of_app, requests_of_rounds, !length_app,
      repeat_length. cbn. lia. }
  assert (Hnow : forall rest,
             writes_of (backoff_rounds lreq default_backoff_factor 0 k
                          ++ [Get lreq] ++ rest) = writes_of rest).
  { intros rest. now rewrite !writes_of_app, writes_of_rounds. }
  destruct listing_ids as [|x xs].
  - eexists (Ok tt), _. unfold emit. split; [now rewrite <- !app_assoc|].
    rewrite Hfirst, Hnow. cbn. lia.
  - destruct (mfor_total
                (process_listing srv (rstrip_slash base) (auth_headers environ)
                   target_date) (x :: xs)
                (fun id t0 => process_listing_total srv _ _ _ id t0)
                (t ++ backoff_rounds lreq default_backoff_factor 0 k ++ [Get lreq]))
      as (r & new & Hrun).
    rewrite Hrun.
    destruct (mfor_bounded _ _ _ _ _ _ _ _ Hrun) as (n2 & Ht & Hr2 & Hw2).
    apply app_inv_head in Ht. subst n2.
    exists r. eexists. split; [now rewrite <- !app_assoc|].
    rewrite Hfirst, Hnow. cbn [List.length] in *. lia.
Qed.

Lemma etl_requests_bounded_witness :
  exists (r : result unit) (new : trace),
    etl second_of_three_fails_server test_environ test_strptime june_30
      (Some "2025-07-01") [] = Some (r, [] ++ new) /\
    (List.length (requests_of new) <= 12)%nat.
Proof.
  destruct (@etl_requests_bounded builtin_PyStr second_of_three_fails_server
              test_environ test_strptime june_30 (Some "2025-07-01") []
              [Get (request_for "http://testserver/listings" (Some []) None)]
              july_1 "http://testserver" ["1"; "2"; "3"])
    as (r & new & Hrun & Hreq & _).
  - repeat split; try discriminate. eexists. split; reflexivity.
  - exists r, new. split; [exact Hrun | exact Hreq].
Defined.

(** ** Listing IDs and paths *)

Lemma append_inv_head (a x y : string) : a +:+ x = a +:+ y -> x = y.
Proof.
  induction a as [|c a IH]; cbn; [trivial|]. intros [= Heq]. now apply IH.
Qed.

Lemma append_length (a b : string) :
  String.length (a +:+ b) = (String.length a + String.length b)%nat.
Proof.
  induction a as [|c a IH]; [reflexivity|].
  change (S (String.length (a +:+ b)) = S (String.length a + String.length b)).
  now rewrite IH.
Qed.

Lemma append_assoc (a b c : string) : (a +:+ b) +:+ c = a +:+ b +:+ c.
Proof.
  induction a as [|x a IH]; [reflexivity|].
  change (String x ((a +:+ b) +:+ c) = String x (a +:+ b +:+ c)). now rewrite IH.
Qed.

Lemma append_inv_tail (s : string) : forall x y, x +:+ s = y +:+ s -> x = y.
Proof.
  induction x as [|c x IH]; intros [|c' y] Heq.
  - reflexivity.
  - apply (f_equal String.length) in Heq.
    change (String c' y +:+ s) with (String c' (y +:+ s)) in Heq.
    cbn [String.length String.append] in Heq. rewrite !append_length in Heq.
    cbn [String.length] in Heq. lia.
  - apply (f_equal String.length) in Heq.
    change (String c x +:+ s) with (String c (x +:+ s)) in Heq.
    cbn [String.length String.append] in Heq. rewrite !append_length in Heq.
    cbn [String.length] in Heq. lia.
  - change (String c x +:+ s) with (String c (x +:+ s)) in Heq.
    change (String c' y +:+ s) with (String c' (y +:+ s)) in Heq.
    injection Heq as -> Heq. f_equal. now apply IH.
Qed.

Lemma endswith_slash_snoc (s : string) : endswith_slash (s +:+ "/") = true.
Proof. rewrite endswith_slash_app by discriminate. reflexivity. Qed.

(** X10: on one date, two different listing IDs that are not empty and
    have no slash at either end never share an output file. *)
Theorem out_path_injective `{PyStr} (id1 id2 : string) (target_date : dt_date) :
  plain_id id1 ->
  plain_id id2 ->
  id1 <> id2 ->
  out_path_of id1 target_date <> out_path_of id2 target_date.
Proof.
  intros (Hne1 & Hs1 & He1) (Hne2 & Hs2 & He2) Hdiff Hpath. apply Hdiff.
  rewrite !out_path_template in Hpath by assumption.
  apply append_inv_head in Hpath. now apply append_inv_tail in Hpath.
Qed.

Lemma out_path_injective_witness :
  out_path_of "1" july_1 <> out_path_of "12" july_1.
Proof.
  apply (@out_path_injective builtin_PyStr "1" "12" july_1);
    repeat split; discriminate.
Defined.

(** X11: a slash at the end of a listing ID is lost in the path: the IDs
    [a] and [a/] are written to the same file. *)
Theorem out_path_trailing_slash `{PyStr} (listing_id : string) (target_date : dt_date) :
  plain_id listing_id ->
  out_path_of (listing_id +:+ "/") target_date = out_path_of listing_id target_date.
Proof.
  intros (Hne & Hstart & Hend).
  rewrite (out_path_template listing_id) by assumption.
  unfold out_path_of, out_dir_of, os_path_join. cbn [fold_left].
  rewrite py_str_str.
  assert (Hstart' : startswith_slash (listing_id +:+ "/") = false).
  { destruct listing_id; [contradiction | exact Hstart]. }
  assert (Hdir : join_step (join_step "data" "raw") (listing_id +:+ "/")
                 = "data/raw/" +:+ listing_id +:+ "/").
  { unfold join_step at 1. rewrite Hstart'. reflexivity. }
  rewrite Hdir. unfold join_step. rewrite date_str_start.
  assert (Hend' : endswith_slash ("data/raw/" +:+ listing_id +:+ "/") = true).
  { rewrite endswith_slash_app by (destruct listing_id; discriminate).
    apply endswith_slash_snoc. }
  rewrite Hend', orb_true_r. now rewrite !append_assoc.
Qed.

Lemma out_path_trailing_slash_witness :
  out_path_of "12/" july_1 = "data/raw/12/2025-07-01.parquet".
Proof.
  apply (@out_path_trailing_slash builtin_PyStr "12" july_1).
  repeat split. discriminate.
Defined.

(** ** The base URL *)

Lemma rstrip_slash_snoc (s : string) : rstrip_slash (s +:+ "/") = rstrip_slash s.
Proof.
  induction s as [|c s IH]; [reflexivity|].
  change (String c s +:+ "/") with (String c (s +:+ "/")).
  cbn [rstrip_slash]. now rewrite IH.
Qed.

Lemma rstrip_slash_no_slash (s : string) : endswith_slash (rstrip_slash s) = false.
Proof.
  induction s as [|c s IH]; [reflexivity|].
  cbn [rstrip_slash]. destruct (rstrip_slash s) as [|c' r] eqn:E.
  - destruct (Ascii.eqb c "/") eqn:Ec; [reflexivity|]. cbn. exact Ec.
  - exact IH.
Qed.

(** X12: one more slash at the end of [WHEELHOUSE_BASE_URL] changes
    nothing: the run is the same, request for request, and the base that
    the URLs are built on never ends with a slash. *)
Theorem etl_base_url_trailing_slash `{PyStr}
    (srv : server) (environ environ' : string -> option string)
    (strptime_ymd : string -> option dt_date) (yesterday : dt_date)
    (base : string) (date : option string) (t : trace) :
  environ "WHEELHOUSE_BASE_URL" = Some base ->
  base <> EmptyString ->
  environ' "WHEELHOUSE_BASE_URL" = Some (base +:+ "/") ->
  environ' "WHEELHOUSE_API_KEY" = environ "WHEELHOUSE_API_KEY" ->
  etl srv environ' strptime_ymd yesterday date t
  = etl srv environ strptime_ymd yesterday date t /\
  endswith_slash (rstrip_slash base) = false.
Proof.
  intros Hbase Hne Hbase' Hkey. split; [|apply rstrip_slash_no_slash].
  unfold etl. rewrite Hbase, Hbase', Hkey.
  destruct base as [|c base]; [contradiction|].
  change (String c base +:+ "/") with (String c (base +:+ "/")).
  cbv zeta.
  change (String c (base +:+ "/")) with (String c base +:+ "/").
  now rewrite rstrip_slash_snoc.
Qed.

Lemma etl_base_url_trailing_slash_witness :
  etl happy_server keyed_environ test_strptime june_30 (Some "2025-07-01") []
  = etl happy_server
      (fun name => if String.eqb name "WHEELHOUSE_BASE_URL" then Some "http://testserver/"
                   else keyed_environ name)
      test_strptime june_30 (Some "2025-07-01") [].
Proof.
  apply (@etl_base_url_trailing_slash builtin_PyStr happy_server
           (fun name => if String.eqb name "WHEELHOUSE_BASE_URL"
                        then Some "http://testserver/" else keyed_environ name)
           keyed_environ test_strptime june_30 "http://testserver/"
           (Some "2025-07-01") []); try reflexivity.
  discriminate.
Defined.

(** ** Metrics that are not records *)


